(** * hyperglass: command construction ([hyperglass/command/construct.py])

    A shallow embedding of the two builders of [construct.py], [frr] (the
    API query builder) and [ssh] (the direct command builder), together
    with the part of the Python runtime they rely on: exceptions, the
    logger, local variables that may be unbound, class instantiation and
    [re.match] on the four patterns the module uses. *)

From Stdlib Require Import Ascii String ZArith Lia.
From stdpp Require Import base strings gmap list pretty.

Open Scope string_scope.
Open Scope Z_scope.

(** ** The Python runtime the module relies on *)

Module Py.

(** Exceptions the builders can meet.  The argument is the text Python
    attaches to the exception (the missing key, the variable name). *)
Inductive exn : Type :=
| TypeError (msg : string)
| KeyError (key : string)
| IndexError (msg : string)
| ValueError (msg : string)
| AttributeError (attr : string)
| UnboundLocalError (name : string)
| AddrFormatError (msg : string).

(** A computation either yields a value or raises. *)
Inductive outcome (A : Type) : Type :=
| Returns (a : A)
| Raises (e : exn).
Arguments Returns {A} a.
Arguments Raises {A} e.

(** [logzero]'s logger, as the list of records it has been handed. *)
Inductive level : Type := INFO | ERROR.
Definition log_record : Type := level * string.

(** The state one call runs in: its local variables [L] and the log. *)
Record state (L : Type) : Type := State { locals : L; log : list log_record }.
Arguments State {L} locals log.
Arguments locals {L} s.
Arguments log {L} s.

Definition M (L A : Type) : Type := state L -> state L * outcome A.

Definition ret {L A} (a : A) : M L A := fun s => (s, Returns a).

Definition bind {L A B} (m : M L A) (k : A -> M L B) : M L B :=
  fun s => match m s with
           | (s', Returns a) => k a s'
           | (s', Raises e) => (s', Raises e)
           end.

Definition raise {L A} (e : exn) : M L A := fun s => (s, Raises e).

(** [lift o]: the result of a library call, which touches neither the
    locals nor the log. *)
Definition lift {L A} (o : outcome A) : M L A := fun s => (s, o).

(** [try: body / except: handler] with a bare [except], which catches
    every exception; the handler starts in the state the body had reached
    when it raised. *)
Definition try_except {L A} (body handler : M L A) : M L A :=
  fun s => match body s with
           | (s', Returns a) => (s', Returns a)
           | (s', Raises _) => handler s'
           end.

Definition logger_info {L} (text : string) : M L unit :=
  fun s => (State (locals s) (log s ++ [(INFO, text)]), Returns tt).

Definition logger_error {L} (text : string) : M L unit :=
  fun s => (State (locals s) (log s ++ [(ERROR, text)]), Returns tt).

(** A local variable is [None] until its first assignment; reading it
    before that raises [UnboundLocalError]. *)
Definition assign {A} (v : A) : M (option A) unit :=
  fun s => (State (Some v) (log s), Returns tt).

Definition read {A} (name : string) : M (option A) A :=
  fun s => match locals s with
           | Some v => (s, Returns v)
           | None => (s, Raises (UnboundLocalError name))
           end.

(** Calling a function: fresh locals [init], the caller's log; what the
    caller sees afterwards is the log and the outcome. *)
Definition call {L A} (init : L) (body : M L A)
    (lg : list log_record) : list log_record * outcome A :=
  let '(s, r) := body (State init lg) in (log s, r).

(** [x in xs] on a list of strings. *)
Definition str_in (x : string) (xs : list string) : bool :=
  existsb (String.eqb x) xs.

(** [d[k]] on a dict with string keys. *)
Definition getitem {L A} (d : gmap string A) (k : string) : M L A :=
  match d !! k with
  | Some v => ret v
  | None => raise (KeyError k)
  end.

(** [o.attr]: an attribute that was never set raises [AttributeError]. *)
Definition getattr {L A} (attr : string) (field : option A) : M L A :=
  match field with
  | Some v => ret v
  | None => raise (AttributeError attr)
  end.

(** [C(args)]: run [__init__] on a fresh object; Python raises
    [TypeError] when [__init__] returns anything but [None]. *)
Definition instantiate {L O R} (init : M L (O * option R)) : M L O :=
  bind init (fun '(self, r) =>
    match r with
    | None => ret self
    | Some _ => raise (TypeError "__init__() should return None, not 'tuple'")
    end).

End Py.

Import Py.

Declare Scope py_scope.
Delimit Scope py_scope with py.
Notation "x <- m ;; k" := (bind m (fun x => k))
  (at level 100, m at next level, right associativity) : py_scope.
Notation "m ;;; k" := (bind m (fun _ => k))
  (at level 100, right associativity) : py_scope.
Open Scope py_scope.

(** ** [re.match]

    Characters are [ascii].  A Python string holds code points, but the
    patterns of the module only tell the digits 0-9, the colon and the
    newline from everything else, so nothing here depends on the
    difference. *)

Module Re.

Inductive cclass : Type :=
| Digit   (* [0-9] *)
| Dot.    (* .  (every character but the newline) *)

Definition newline : ascii := ascii_of_nat 10.

Definition is_digit (c : ascii) : bool :=
  let n := nat_of_ascii c in (48 <=? n)%nat && (n <=? 57)%nat.

Definition mem (cl : cclass) (c : ascii) : bool :=
  match cl with
  | Digit => is_digit c
  | Dot => negb (Ascii.eqb c newline)
  end.

(** The patterns of the module are sequences of these items; the groups
    [( )] of the source patterns capture but do not change what matches. *)
Inductive item : Type :=
| Bol                                   (* ^ *)
| Eol                                   (* $ *)
| Lit (c : ascii)                       (* \: *)
| Rep (cl : cclass) (lo hi : nat)       (* cl{lo,hi} *)
| Star (cl : cclass).                   (* cl* *)

(** [$] without [re.MULTILINE]: at the end of the string, or just before
    a newline that is the last character. *)
Definition at_eol (s : string) : bool :=
  match s with
  | EmptyString => true
  | String c EmptyString => Ascii.eqb c newline
  | _ => false
  end.

(** [cl{lo,hi}] followed by the continuation [k]; [pos] is the offset
    of [s] in the subject. *)
Fixpoint rep (cl : cclass) (k : nat -> string -> bool)
    (lo hi : nat) (pos : nat) (s : string) {struct s} : bool :=
  ((lo =? 0)%nat && k pos s)
  || match s, hi with
     | String c s', S hi' => mem cl c && rep cl k (Nat.pred lo) hi' (S pos) s'
     | _, _ => false
     end.

Fixpoint star (cl : cclass) (k : nat -> string -> bool)
    (pos : nat) (s : string) : bool :=
  k pos s
  || match s with
     | String c s' => mem cl c && star cl k (S pos) s'
     | EmptyString => false
     end.

Fixpoint matches (p : list item) (pos : nat) (s : string) : bool :=
  match p with
  | [] => true
  | Bol :: p' => (pos =? 0)%nat && matches p' pos s
  | Eol :: p' => at_eol s && matches p' pos s
  | Lit c :: p' =>
      match s with
      | String c' s' => Ascii.eqb c c' && matches p' (S pos) s'
      | EmptyString => false
      end
  | Rep cl lo hi :: p' => rep cl (matches p') lo hi pos s
  | Star cl :: p' => star cl (matches p') pos s
  end.

(** [re.match(p, s)] as a truth value: a match object is truthy, [None]
    is not.  The match is tried at offset 0 only. *)
Definition re_match (p : list item) (s : string) : bool := matches p 0 s.

End Re.

Import Re.

(** The four patterns of [construct.py]. *)

(* "^([0-9]{0,5})\:([0-9]{1,5})$" *)
Definition re_new_format : list item :=
  [Bol; Rep Digit 0 5; Lit ":"; Rep Digit 1 5; Eol].

(* "^[0-9]{1,10}$" *)
Definition re_32bit : list item :=
  [Bol; Rep Digit 1 10; Eol].

(* "^([0-9]{1,10})\:([0-9]{1,10})\:[0-9]{1,10}$" *)
Definition re_large : list item :=
  [Bol; Rep Digit 1 10; Lit ":"; Rep Digit 1 10; Lit ":"; Rep Digit 1 10; Eol].

(* ".*" *)
Definition re_aspath : list item :=
  [Star Dot].

(** ** String helpers *)

Module Str.

(** The one-character string "\n". *)
Definition nl : string := String newline EmptyString.

(** [s.split(sep)] for a one-character separator. *)
Fixpoint split_on (sep : ascii) (s : string) : list string :=
  match s with
  | EmptyString => [EmptyString]
  | String c s' =>
      if Ascii.eqb c sep then EmptyString :: split_on sep s'
      else match split_on sep s' with
           | w :: ws => String c w :: ws
           | [] => [String c EmptyString]
           end
  end.

Fixpoint all_chars (p : ascii -> bool) (s : string) : bool :=
  match s with
  | EmptyString => true
  | String c s' => p c && all_chars p s'
  end.

Definition is_empty (s : string) : bool :=
  match s with EmptyString => true | _ => false end.

(** [s] without its last character when that is a newline. *)
Fixpoint chomp (s : string) : string :=
  match s with
  | EmptyString => EmptyString
  | String c s' =>
      if Ascii.eqb c newline && is_empty s' then EmptyString
      else String c (chomp s')
  end.

End Str.

Import Str.

(** ** The community syntaxes, as the specification words them

    These three recognisers follow the prose of the specification, not
    the patterns of the source; the theorems compare them with what
    [re.match] does on [re_new_format], [re_32bit] and [re_large]. *)

Module Community.

(** Between [lo] and [hi] characters, all of them decimal digits. *)
Definition digits (lo hi : nat) (s : string) : bool :=
  all_chars is_digit s
  && (lo <=? String.length s)%nat && (String.length s <=? hi)%nat.

(** New-format extended community: [ASN:NN], ASN of 0 to 5 digits, NN of
    1 to 5 digits. *)
Definition new_format (s : string) : bool :=
  match split_on ":" s with
  | [asn; nn] => digits 0 5 asn && digits 1 5 nn
  | _ => false
  end.

(** 32-bit plain community: 1 to 10 digits, no colon. *)
Definition plain_32bit (s : string) : bool := digits 1 10 s.

(** Large community: three colon-separated groups of 1 to 10 digits. *)
Definition large (s : string) : bool :=
  match split_on ":" s with
  | [a; b; c] => digits 1 10 a && digits 1 10 b && digits 1 10 c
  | _ => false
  end.

Definition syntax (s : string) : bool :=
  new_format s || plain_32bit s || large s.

End Community.

(** ** Data model *)

(** [class codes]: the three status codes, set by [__init__]. *)
Record codes : Type := { success : Z; warning : Z; danger : Z }.

Definition codes___init__ : codes :=
  {| success := 200; warning := 405; danger := 415 |}.

(* code = codes() *)
Definition code : codes := codes___init__.

(** A device of the configuration, a dict that has the seven keys [frr]
    and [ssh] read on entry. *)
Record Device : Type := {
  address : string;
  src_addr_ipv4 : string;
  src_addr_ipv6 : string;
  location : string;
  name : string;
  port : Z;
  type : string
}.

(** One vendor of the commands file, [commands[type][0]]: the template
    groups under the keys "dual", "ipv4" and "ipv6", each a dict from the
    query type to a format string. *)
Record commands_entry : Type := {
  entry_dual : gmap string string;
  entry_ipv4 : gmap string string;
  entry_ipv6 : gmap string string
}.

(** What [construct.py] imports and loads at module level.  [netaddr],
    [json] and [str.format] are not code of this repository; [commands]
    is the commands file as loaded by [configuration.commands()]. *)
Class Globals : Type := {
  (* IPNetwork(s).ip.version *)
  IPNetwork_ip_version : string -> outcome Z;
  (* json.dumps(d) for a dict [d] of strings, in insertion order *)
  json_dumps : list (string * string) -> string;
  (* tmpl.format( **kwargs ) *)
  str_format : string -> list (string * string) -> outcome string;
  commands : gmap string commands_entry
}.

(** The tuples the builders return. *)
Definition frr_result : Type := string * Z * string * string.
Definition ssh_result : Type := string * Z * string * string * string.

(** [f"{a}, {b}, {c}, ..."]: the shape of every error log line. *)
Definition commas (parts : list string) : string := String.concat ", " parts.

(** ** [frr]: the API query builder *)

Section Builders.
Context `{G : Globals}.

(** The body of [frr]; its one local that can be read unassigned is
    [query], kept as the local state of the call.  A Python function
    whose body ends without [return] yields [None]. *)
Definition frr_body (cmd ipprefix : string) (device : Device)
    : M (option string) (option frr_result) :=
  let d_address := address device in
  let d_src_addr_ipv4 := src_addr_ipv4 device in
  let d_src_addr_ipv6 := src_addr_ipv6 device in
  let d_name := name device in
  logger_info ("Constructing " +:+ cmd +:+ " command for FRR router "
               +:+ d_name +:+ " to " +:+ ipprefix +:+ "...") ;;;
  if str_in cmd ["bgp_community"] then
    assign (json_dumps [("cmd", cmd); ("afi", "dual"); ("target", ipprefix)]) ;;;
    if re_match re_new_format ipprefix then
      let msg := ipprefix +:+ " matched new-format community." in
      query <- read "query" ;;
      ret (Some (msg, success code, d_address, query))
    else if re_match re_32bit ipprefix then
      let msg := ipprefix +:+ " matched 32 bit community." in
      query <- read "query" ;;
      ret (Some (msg, success code, d_address, query))
    else if re_match re_large ipprefix then
      let msg := ipprefix +:+ " matched large community." in
      query <- read "query" ;;
      ret (Some (msg, success code, d_address, query))
    else
      let msg := ipprefix +:+ " is an invalid BGP Community Format." in
      query <- read "query" ;;
      logger_error (commas [msg; pretty (danger code); d_name; query]) ;;;
      ret (Some (msg, danger code, d_address, query))
  else if str_in cmd ["bgp_aspath"] then
    if re_match re_aspath ipprefix then
      assign (json_dumps [("cmd", cmd); ("afi", "dual"); ("target", ipprefix)]) ;;;
      let msg := ipprefix +:+ " matched AS_PATH regex." in
      query <- read "query" ;;
      ret (Some (msg, success code, d_address, query))
    else
      let msg := ipprefix +:+ " is an invalid AS_PATH regex." in
      logger_error (commas [msg; pretty (danger code); d_name; cmd; ipprefix]) ;;;
      query <- read "query" ;;
      ret (Some (msg, danger code, d_address, query))
  else if str_in cmd ["bgp_route"] then
    try_except
      (v <- lift (IPNetwork_ip_version ipprefix) ;;
       if v =? 4 then
         assign (json_dumps [("cmd", cmd); ("afi", "ipv4"); ("target", ipprefix)]) ;;;
         let msg := ipprefix +:+ " is a valid IPv4 Adddress." in
         query <- read "query" ;;
         ret (Some (msg, success code, d_address, query))
       else
         v <- lift (IPNetwork_ip_version ipprefix) ;;
         if v =? 6 then
           assign (json_dumps [("cmd", cmd); ("afi", "ipv6"); ("target", ipprefix)]) ;;;
           let msg := ipprefix +:+ " is a valid IPv6 Adddress." in
           query <- read "query" ;;
           ret (Some (msg, success code, d_address, query))
         else ret None)
      (let msg := ipprefix +:+ " is an invalid IP Address." in
       query <- read "query" ;;
       logger_error (commas [msg; pretty (danger code); d_name; query]) ;;;
       ret (Some (msg, danger code, d_address, query)))
  else if str_in cmd ["ping"; "traceroute"] then
    try_except
      (v <- lift (IPNetwork_ip_version ipprefix) ;;
       if v =? 4 then
         assign (json_dumps [("cmd", cmd); ("afi", "ipv4");
                             ("source", d_src_addr_ipv4); ("target", ipprefix)]) ;;;
         let msg := ipprefix +:+ " is a valid IPv4 Adddress." in
         query <- read "query" ;;
         ret (Some (msg, success code, d_address, query))
       else
         v <- lift (IPNetwork_ip_version ipprefix) ;;
         if v =? 6 then
           assign (json_dumps [("cmd", cmd); ("afi", "ipv6");
                               ("source", d_src_addr_ipv6); ("target", ipprefix)]) ;;;
           let msg := ipprefix +:+ " is a valid IPv6 Adddress." in
           query <- read "query" ;;
           ret (Some (msg, success code, d_address, query))
         else ret None)
      (let msg := ipprefix +:+ " is an invalid IP Address." in
       query <- read "query" ;;
       logger_error (commas [msg; pretty (danger code); d_name; query]) ;;;
       ret (Some (msg, danger code, d_name, query)))
  else
    let msg := "Command " +:+ cmd +:+ " not found." in
    query <- read "query" ;;
    logger_error (commas [msg; pretty (danger code); d_name; query]) ;;;
    ret (Some (msg, danger code, d_name, query)).

(** [frr(cmd, ipprefix, device)] as its caller sees it. *)
Definition frr (cmd ipprefix : string) (device : Device)
    : list log_record -> list log_record * outcome (option frr_result) :=
  call None (frr_body cmd ipprefix device).

(** ** [ssh]: the direct command builder *)

(** An instance of the local [class command]: the attributes [__init__]
    may set. *)
Record command : Type := {
  dual : option (gmap string string);
  ipv4 : option (gmap string string);
  ipv6 : option (gmap string string)
}.

(** [command.__init__(self, type)]: the object as it leaves [__init__],
    and the value [__init__] returns ([None] when it falls off its end).
    [cmd], [ipprefix], [d_name] and [d_type] are the enclosing locals of
    [ssh] the method refers to. *)
Definition command___init__ (cmd ipprefix d_name d_type : string)
    (type : string) : M unit (command * option ssh_result) :=
  match commands !! type with
  | Some entry =>
      ret ({| dual := Some (entry_dual entry);
              ipv4 := Some (entry_ipv4 entry);
              ipv6 := Some (entry_ipv6 entry) |}, None)
  | None =>
      let msg := d_type +:+ " is an unsupported network operating system." in
      logger_error (commas [msg; pretty (danger code); d_name; cmd; ipprefix]) ;;;
      ret ({| dual := None; ipv4 := None; ipv6 := None |},
           Some (msg, danger code, d_name, cmd, ipprefix))
  end.

Definition ssh_body (cmd ipprefix : string) (device : Device)
    : M unit (option ssh_result) :=
  let d_address := address device in
  let d_src_addr_ipv4 := src_addr_ipv4 device in
  let d_src_addr_ipv6 := src_addr_ipv6 device in
  let d_name := name device in
  let d_type := type device in
  logger_info ("Constructing " +:+ cmd +:+ " command for "
               +:+ d_name +:+ " to " +:+ ipprefix +:+ "...") ;;;
  c <- instantiate (command___init__ cmd ipprefix d_name d_type d_type) ;;
  if String.eqb cmd "bgp_community" then
    if re_match re_new_format ipprefix then
      c_dual <- getattr "dual" (dual c) ;;
      mc <- getitem c_dual cmd ;;
      command <- lift (str_format mc [("target", ipprefix)]) ;;
      let msg := ipprefix +:+ " matched new-format community." in
      ret (Some (msg, success code, d_address, d_type, command))
    else if re_match re_32bit ipprefix then
      c_dual <- getattr "dual" (dual c) ;;
      mc <- getitem c_dual cmd ;;
      command <- lift (str_format mc [("target", ipprefix)]) ;;
      let msg := ipprefix +:+ " matched 32 bit community." in
      ret (Some (msg, success code, d_address, d_type, command))
    else if re_match re_large ipprefix then
      c_dual <- getattr "dual" (dual c) ;;
      mc <- getitem c_dual cmd ;;
      command <- lift (str_format mc [("target", ipprefix)]) ;;
      let msg := ipprefix +:+ " matched large community." in
      ret (Some (msg, success code, d_address, d_type, command))
    else
      let msg := ipprefix +:+ " is an invalid BGP Community Format." in
      logger_error (commas [msg; pretty (danger code); d_name; cmd; ipprefix]) ;;;
      ret (Some (msg, danger code, d_name, cmd, ipprefix))
  else if String.eqb cmd "bgp_aspath" then
    if re_match re_aspath ipprefix then
      c_dual <- getattr "dual" (dual c) ;;
      mc <- getitem c_dual cmd ;;
      command <- lift (str_format mc [("target", ipprefix)]) ;;
      let msg := ipprefix +:+ " matched AS_PATH regex." in
      ret (Some (msg, success code, d_address, d_type, command))
    else
      let msg := ipprefix +:+ " is an invalid AS_PATH regex." in
      logger_error (commas [msg; pretty (danger code); d_name; cmd; ipprefix]) ;;;
      ret (Some (msg, danger code, d_name, cmd, ipprefix))
  else if String.eqb cmd "bgp_route" then
    try_except
      (v <- lift (IPNetwork_ip_version ipprefix) ;;
       if v =? 4 then
         c_ipv4 <- getattr "ipv4" (ipv4 c) ;;
         mc <- getitem c_ipv4 cmd ;;
         command <- lift (str_format mc [("target", ipprefix)]) ;;
         let msg := ipprefix +:+ " is a valid IPv4 Adddress." in
         ret (Some (msg, success code, d_address, d_type, command))
       else
         v <- lift (IPNetwork_ip_version ipprefix) ;;
         if v =? 6 then
           c_ipv6 <- getattr "ipv6" (ipv6 c) ;;
           mc <- getitem c_ipv6 cmd ;;
           command <- lift (str_format mc [("target", ipprefix)]) ;;
           let msg := ipprefix +:+ " is a valid IPv6 Adddress." in
           ret (Some (msg, success code, d_address, d_type, command))
         else ret None)
      (let msg := ipprefix +:+ " is an invalid IP Address." in
       logger_error (commas [msg; pretty (danger code); d_name; cmd; ipprefix]) ;;;
       ret (Some (msg, danger code, d_name, cmd, ipprefix)))
  else if str_in cmd ["ping"; "traceroute"] then
    try_except
      (v <- lift (IPNetwork_ip_version ipprefix) ;;
       if v =? 4 then
         c_ipv4 <- getattr "ipv4" (ipv4 c) ;;
         mc <- getitem c_ipv4 cmd ;;
         command <- lift (str_format mc [("target", ipprefix);
                                         ("src_addr_ipv4", d_src_addr_ipv4)]) ;;
         let msg := ipprefix +:+ " is a valid IPv4 Adddress." in
         ret (Some (msg, success code, d_address, d_type, command))
       else
         v <- lift (IPNetwork_ip_version ipprefix) ;;
         if v =? 6 then
           c_ipv6 <- getattr "ipv6" (ipv6 c) ;;
           mc <- getitem c_ipv6 cmd ;;
           command <- lift (str_format mc [("target", ipprefix);
                                           ("src_addr_ipv6", d_src_addr_ipv6)]) ;;
           let msg := ipprefix +:+ " is a valid IPv6 Adddress." in
           ret (Some (msg, success code, d_address, d_type, command))
         else ret None)
      (let msg := ipprefix +:+ " is an invalid IP Address." in
       logger_error (commas [msg; pretty (danger code); d_name; cmd; ipprefix]) ;;;
       ret (Some (msg, danger code, d_name, cmd, ipprefix)))
  else
    let msg := "Command " +:+ cmd +:+ " not found." in
    logger_error (commas [msg; pretty (danger code); d_name; cmd; ipprefix]) ;;;
    ret (Some (msg, danger code, d_name, cmd, ipprefix)).

(** [ssh(cmd, ipprefix, device)] as its caller sees it. *)
Definition ssh (cmd ipprefix : string) (device : Device)
    : list log_record -> list log_record * outcome (option ssh_result) :=
  call tt (ssh_body cmd ipprefix device).

End Builders.

(** ** The log records of the builders, for the statements below *)

(** The [INFO] record every call of [frr] starts with. *)
Definition frr_info (cmd t : string) (dev : Device) : log_record :=
  (INFO, "Constructing " +:+ cmd +:+ " command for FRR router "
         +:+ name dev +:+ " to " +:+ t +:+ "...").

(** The [INFO] record every call of [ssh] starts with, and the [ERROR]
    record of its failure branches. *)
Definition ssh_info (cmd t : string) (dev : Device) : log_record :=
  (INFO, "Constructing " +:+ cmd +:+ " command for "
         +:+ name dev +:+ " to " +:+ t +:+ "...").

Definition ssh_error (msg cmd t : string) (dev : Device) : log_record :=
  (ERROR, commas [msg; pretty (danger code); name dev; cmd; t]).

(** ** A concrete set of globals, to run the builders

    The theorems below hold for every [Globals].  To evaluate the builders
    on concrete inputs, [Sample] supplies small stand-ins for the three
    library functions (each covers the plain cases of the library it stands
    for and nothing more) and a commands file with two vendors. *)

Module Sample.

Definition dquote : string := String (ascii_of_nat 34) EmptyString.
Definition backslash : ascii := ascii_of_nat 92.

Fixpoint decimal (acc : nat) (s : string) : nat :=
  match s with
  | EmptyString => acc
  | String c s' => decimal (10 * acc + (nat_of_ascii c - 48)) s'
  end.

(** A decimal number of at most three digits that is at most [bound]. *)
Definition number_upto (bound : nat) (s : string) : bool :=
  (1 <=? String.length s)%nat && (String.length s <=? 3)%nat
  && all_chars is_digit s && (decimal 0 s <=? bound)%nat.

Definition is_hex (c : ascii) : bool :=
  let n := nat_of_ascii c in
  is_digit c || ((65 <=? n)%nat && (n <=? 70)%nat)
             || ((97 <=? n)%nat && (n <=? 102)%nat).

Definition hex_group (s : string) : bool :=
  (String.length s <=? 4)%nat && all_chars is_hex s.

Definition dotted_quad (s : string) : bool :=
  match split_on "." s with
  | [a; b; c; d] => forallb (number_upto 255) [a; b; c; d]
  | _ => false
  end.

(** A leading (or, on the reversed list, trailing) [::] shows as two
    empty groups; one of them is dropped.  A single leading colon is
    not an address. *)
Definition squeeze_head (gs : list string) : option (list string) :=
  match gs with
  | g1 :: g2 :: r =>
      if is_empty g1 then (if is_empty g2 then Some (g2 :: r) else None)
      else Some gs
  | _ => Some gs
  end.

(** Eight groups of hexadecimal digits, or fewer with one [::]. *)
Definition colon_groups (s : string) : bool :=
  let gs0 := split_on ":" s in
  match squeeze_head gs0 with
  | None => false
  | Some gs1 =>
      match squeeze_head (rev gs1) with
      | None => false
      | Some gs =>
          let n := length gs in
          let e := length (filter (fun g => is_empty g = true) gs) in
          ((3 <=? length gs0) && forallb hex_group gs
           && (((e =? 0) && (n =? 8)) || ((e =? 1) && (n <=? 8))))%nat
      end
  end.

Definition with_prefix (addr : string -> bool) (bits : nat) (s : string) : bool :=
  match split_on "/" s with
  | [a] => addr a
  | [a; len] => addr a && number_upto bits len
  | _ => false
  end.

Definition IPNetwork_ip_version (s : string) : outcome Z :=
  if with_prefix dotted_quad 32 s then Returns 4
  else if with_prefix colon_groups 128 s then Returns 6
  else Raises (AddrFormatError ("invalid IPNetwork " +:+ s)).

(** JSON text of a dict of strings. *)
Fixpoint json_escape (s : string) : string :=
  match s with
  | EmptyString => EmptyString
  | String c s' =>
      if Ascii.eqb c (ascii_of_nat 34) || Ascii.eqb c backslash
      then String backslash (String c (json_escape s'))
      else if Ascii.eqb c newline then String backslash (String "n" (json_escape s'))
      else String c (json_escape s')
  end.

Definition json_string (s : string) : string := dquote +:+ json_escape s +:+ dquote.

Definition json_dumps (d : list (string * string)) : string :=
  "{" +:+ String.concat ", "
            (map (fun '(k, v) => json_string k +:+ ": " +:+ json_string v) d)
      +:+ "}".

Fixpoint kwarg (kw : list (string * string)) (k : string) : option string :=
  match kw with
  | [] => None
  | (k', v) :: kw' => if String.eqb k k' then Some v else kwarg kw' k
  end.

Definition prepend (c : string) (o : outcome string) : outcome string :=
  match o with
  | Returns s => Returns (c +:+ s)
  | Raises e => Raises e
  end.

(** [tmpl.format( **kw )] for plain named fields and doubled braces;
    [field] is the field name read so far inside a brace. *)
Fixpoint format_go (kw : list (string * string)) (field : option string)
    (s : string) : outcome string :=
  match field, s with
  | None, EmptyString => Returns EmptyString
  | None, String "{" (String "{" s') => prepend "{" (format_go kw None s')
  | None, String "}" (String "}" s') => prepend "}" (format_go kw None s')
  | None, String "{" s' => format_go kw (Some EmptyString) s'
  | None, String "}" _ => Raises (ValueError "Single '}' encountered in format string")
  | None, String c s' => prepend (String c EmptyString) (format_go kw None s')
  | Some f, EmptyString => Raises (ValueError "expected '}' before end of string")
  | Some f, String "}" s' =>
      match kwarg kw f with
      | Some v => prepend v (format_go kw None s')
      | None =>
          if is_empty f
          then Raises (IndexError "Replacement index 0 out of range for positional args tuple")
          else Raises (KeyError f)
      end
  | Some f, String c s' => format_go kw (Some (f +:+ String c EmptyString)) s'
  end.

Definition str_format (tmpl : string) (kw : list (string * string)) : outcome string :=
  format_go kw None tmpl.

(** A commands file with two vendors.  [cisco_ios] has every template;
    [frr_os] lacks "bgp_aspath" in its "dual" group and "bgp_route" in its
    "ipv6" group. *)
Definition cisco_ios : commands_entry :=
  {| entry_dual :=
       {[ "bgp_community" := "show bgp all community {target}";
          "bgp_aspath" := "show bgp all regexp {target}" ]};
     entry_ipv4 :=
       {[ "bgp_route" := "show bgp ipv4 unicast {target}";
          "ping" := "ping {target} source {src_addr_ipv4}";
          "traceroute" := "traceroute {target} source {src_addr_ipv4}" ]};
     entry_ipv6 :=
       {[ "bgp_route" := "show bgp ipv6 unicast {target}";
          "ping" := "ping ipv6 {target} source {src_addr_ipv6}";
          "traceroute" := "traceroute ipv6 {target} source {src_addr_ipv6}" ]} |}.

Definition frr_os : commands_entry :=
  {| entry_dual :=
       {[ "bgp_community" := "show bgp all community {target}" ]};
     entry_ipv4 :=
       {[ "bgp_route" := "show bgp ipv4 unicast {target}";
          "ping" := "ping -4 -c 5 -I {src_addr_ipv4} {target}";
          "traceroute" := "traceroute -4 -s {src_addr_ipv4} {target}" ]};
     entry_ipv6 :=
       {[ "ping" := "ping -6 -c 5 -I {src_addr_ipv6} {target}";
          "traceroute" := "traceroute -6 -s {src_addr_ipv6} {target}" ]} |}.

Definition commands : gmap string commands_entry :=
  {[ "cisco_ios" := cisco_ios; "frr_os" := frr_os ]}.

#[export] Instance globals : Globals :=
  Build_Globals IPNetwork_ip_version json_dumps str_format commands.

(** Three devices: one of each vendor, and one of a vendor the commands
    file does not know. *)
Definition router1 : Device :=
  {| address := "192.0.2.1";
     src_addr_ipv4 := "192.0.2.255";
     src_addr_ipv6 := "2001:db8::ff";
     location := "pop1";
     name := "router1";
     port := 22;
     type := "cisco_ios" |}.

Definition router2 : Device :=
  {| address := "192.0.2.2";
     src_addr_ipv4 := "192.0.2.254";
     src_addr_ipv6 := "2001:db8::fe";
     location := "pop2";
     name := "router2";
     port := 22;
     type := "unknown_os" |}.

Definition router3 : Device :=
  {| address := "192.0.2.3";
     src_addr_ipv4 := "192.0.2.253";
     src_addr_ipv6 := "2001:db8::fd";
     location := "pop3";
     name := "router3";
     port := 22;
     type := "frr_os" |}.

End Sample.

(** A second commands file, to run [ssh] on a vendor whose templates are
    incomplete: "junos" has an empty "dual" group, and its bgp_route
    template names a placeholder that [ssh] passes no value for. *)

Module Misconfigured.

Definition junos : commands_entry :=
  {| entry_dual := ∅;
     entry_ipv4 :=
       {[ "bgp_route" := "show route {target} source {src_addr_ipv4}" ]};
     entry_ipv6 := ∅ |}.

Definition commands : gmap string commands_entry := {[ "junos" := junos ]}.

Definition globals : Globals :=
  Build_Globals Sample.IPNetwork_ip_version Sample.json_dumps
                Sample.str_format commands.

Definition router4 : Device :=
  {| address := "192.0.2.4";
     src_addr_ipv4 := "192.0.2.252";
     src_addr_ipv6 := "2001:db8::fc";
     location := "pop4";
     name := "router4";
     port := 22;
     type := "junos" |}.

End Misconfigured.

(** The characters of the worded community syntaxes: digits and the colon. *)
Definition community_char (c : ascii) : bool := is_digit c || Ascii.eqb c ":".

(** * [Networks.import_params] ([hyperglass/configuration/models/networks.py]) *)

Module Networks.

(** [class Network]: its one field. *)
Record Network : Type := { display_name : string }.

(** [Network(...).dict()] *)
Definition Network_dict (n : Network) : gmap string string :=
  {[ "display_name" := display_name n ]}.

(** What an attribute of the class [Networks] holds: a [Network] put there
    by [setattr], the dict assigned to [Networks.networks], or anything
    the class had before ([import_params] itself, [Config], ...). *)
Inductive attr : Type :=
| Instance (n : Network)
| NetworksDict (d : gmap string (gmap string string))
| Other (what : string).

(** [Networks()]: an object without fields. *)
Inductive Networks_obj : Type := NetworksObj.

Section ImportParams.

(** [Params] is the value under one network name of the configuration.
    Four things [import_params] relies on are not in this file and are
    taken as they come:
    - [clean_name] of [hyperglass.configuration.models._utils];
    - the validation that [Network( **params )] runs;
    - the instantiation [Networks()], on the class as it is when
      [import_params] is entered;
    - which attribute names [setattr] refuses on a class: Python raises,
      and sets nothing, for names such as [__class__], [__dict__],
      [__name__], [__bases__] or [__mro__]. *)
Context {Params : Type}.
Variable clean_name : string -> outcome string.
Variable Network___init__ : Params -> outcome Network.
Variable Networks___init__ : gmap string attr -> outcome Networks_obj.
Variable setattr_refused : string -> option exn.

(** The [for] loop over [input_params.items()], from the class attributes
    [attrs] and the local dict [networks]; it stops at the first
    exception, with the class attributes as they are at that point. *)
Fixpoint import_loop (items : list (string * Params))
    (attrs : gmap string attr) (networks : gmap string (gmap string string))
    : gmap string attr * outcome (gmap string (gmap string string)) :=
  match items with
  | [] => (attrs, Returns networks)
  | (netname, params) :: items' =>
      (* netname = clean_name(netname) *)
      match clean_name netname with
      | Raises e => (attrs, Raises e)
      | Returns netname =>
          (* setattr(Networks, netname, Network( **params )): the argument
             first, then the call *)
          match Network___init__ params with
          | Raises e => (attrs, Raises e)
          | Returns n =>
              match setattr_refused netname with
              | Some e => (attrs, Raises e)
              | None =>
                  let attrs := <[netname := Instance n]> attrs in
                  (* networks.update({netname: Network( **params ).dict()}) *)
                  match Network___init__ params with
                  | Raises e => (attrs, Raises e)
                  | Returns n' =>
                      import_loop items' attrs
                                  (<[netname := Network_dict n']> networks)
                  end
              end
          end
      end
  end.

(** [Networks.import_params(input_params)], as a step on the attributes
    of the class [Networks]. *)
Definition import_params (input_params : list (string * Params))
    (attrs : gmap string attr) : gmap string attr * outcome Networks_obj :=
  (* obj = Networks() *)
  match Networks___init__ attrs with
  | Raises e => (attrs, Raises e)
  | Returns obj =>
      match import_loop input_params attrs ∅ with
      | (attrs', Returns networks) =>
          (* Networks.networks = networks; return obj *)
          (<["networks" := NetworksDict networks]> attrs', Returns obj)
      | (attrs', Raises e) => (attrs', Raises e)
      end
  end.

(** [builds items built]: every item of [items] goes through one turn of
    the loop: its name is cleaned, its parameters validate and [setattr]
    accepts the cleaned name.  [built] lists, in the same order, the
    cleaned name of each item and the [Network] built for it. *)
Definition builds (items : list (string * Params))
    (built : list (string * Network)) : Prop :=
  Forall2 (fun item kn =>
             clean_name item.1 = Returns kn.1 /\
             Network___init__ item.2 = Returns kn.2 /\
             setattr_refused kn.1 = None)
          items built.

(** [fails item e]: the turn of the loop for [item] raises [e], from
    [clean_name], from the validation or from [setattr]. *)
Definition fails (item : string * Params) (e : exn) : Prop :=
  clean_name item.1 = Raises e \/
  exists k, clean_name item.1 = Returns k /\
    (Network___init__ item.2 = Raises e \/
     exists n, Network___init__ item.2 = Returns n /\
               setattr_refused k = Some e).

End ImportParams.

(** Stand-ins to run [import_params]: a network's parameters are a dict
    of strings that must have the key "display_name"; names are cleaned
    by turning dashes, dots and spaces into underscores. *)
Definition sample_Network___init__ (params : gmap string string) : outcome Network :=
  match params !! "display_name" with
  | Some d => Returns {| display_name := d |}
  | None => Raises (ValueError "display_name: field required")
  end.

Fixpoint sample_clean_name (s : string) : string :=
  match s with
  | EmptyString => EmptyString
  | String c s' =>
      String (if Ascii.eqb c "-" || Ascii.eqb c "." || Ascii.eqb c " "
              then "_"%char else c)
             (sample_clean_name s')
  end.

(** [Networks()] succeeds on the sample class, and [setattr] refuses two
    of the names Python reserves on a class. *)
Definition sample_Networks___init__ (attrs : gmap string attr) : outcome Networks_obj :=
  Returns NetworksObj.

Definition sample_setattr_refused (k : string) : option exn :=
  if String.eqb k "__class__"
  then Some (TypeError "__class__ must be set to a class, not 'Network' object")
  else if String.eqb k "__dict__"
  then Some (AttributeError "__dict__")
  else None.

(** A configuration whose second network has a name [setattr] refuses. *)
Definition sample_reserved_items : list (string * gmap string string) :=
  [("isp-a", {[ "display_name" := "ISP A" ]});
   ("__class__", {[ "display_name" := "Class" ]});
   ("ix 1", {[ "display_name" := "Exchange 1" ]})].

(** A configuration of three networks, two of which clean to the same
    name, and one whose second network lacks its "display_name". *)
Definition sample_items : list (string * gmap string string) :=
  [("isp-a", {[ "display_name" := "ISP A" ]});
   ("isp.a", {[ "display_name" := "ISP A, renamed" ]});
   ("ix 1", {[ "display_name" := "Exchange 1" ]})].

Definition sample_built : list (string * Network) :=
  [("isp_a", {| display_name := "ISP A" |});
   ("isp_a", {| display_name := "ISP A, renamed" |});
   ("ix_1", {| display_name := "Exchange 1" |})].

Definition sample_bad_items : list (string * gmap string string) :=
  [("isp-a", {[ "display_name" := "ISP A" ]});
   ("isp-b", ∅);
   ("ix 1", {[ "display_name" := "Exchange 1" ]})].

End Networks.

(** * The builders on the objects they can reach

    [frr] and [ssh] above take what the module loads as constants.  To
    say what a call does to the objects it can reach, the two functions
    are written out here against a store that holds those objects: the
    module globals [commands] and [code], and the dict the caller passes
    as [device].  Every use of one of them in the source is a read of the
    store ([load]); an assignment to one of them, or to one of their items
    or attributes, would be a [store]. *)

Module World.

Record objects : Type := Objects {
  o_commands : gmap string commands_entry;  (* the global [commands] *)
  o_code : codes;                           (* the global [code] *)
  o_device : Device                         (* the dict [device] refers to *)
}.

(** What a call works on besides the log: its local [query], and the
    objects. *)
Record frame : Type := Frame { f_query : option string; f_objects : objects }.

Definition load {A} (field : objects -> A) : M frame A :=
  fun s => (s, Returns (field (f_objects (locals s)))).

Definition store (update : objects -> objects) : M frame unit :=
  fun s => (State (Frame (f_query (locals s)) (update (f_objects (locals s))))
                  (log s),
            Returns tt).

Definition assign_query (v : string) : M frame unit :=
  fun s => (State (Frame (Some v) (f_objects (locals s))) (log s), Returns tt).

Definition read_query : M frame string :=
  fun s => match f_query (locals s) with
           | Some v => (s, Returns v)
           | None => (s, Raises (UnboundLocalError "query"))
           end.

(** A call: fresh locals, the objects and the log as the caller has them;
    what the caller has afterwards is the objects, the log and the
    outcome. *)
Definition run {A} (body : M frame A) (w : objects * list log_record)
    : (objects * list log_record) * outcome A :=
  let '(s, r) := body (State (Frame None w.1) w.2) in
  ((f_objects (locals s), log s), r).

(** The three library functions, which are no objects of the module. *)
Class Libraries : Type := {
  IPNetwork_ip_version : string -> outcome Z;
  json_dumps : list (string * string) -> string;
  str_format : string -> list (string * string) -> outcome string
}.

Section Builders.
Context `{L : Libraries}.

Definition frr_body (cmd ipprefix : string) : M frame (option frr_result) :=
  device <- load o_device ;;
  let d_address := address device in
  let d_src_addr_ipv4 := src_addr_ipv4 device in
  let d_src_addr_ipv6 := src_addr_ipv6 device in
  let d_name := name device in
  logger_info ("Constructing " +:+ cmd +:+ " command for FRR router "
               +:+ d_name +:+ " to " +:+ ipprefix +:+ "...") ;;;
  if str_in cmd ["bgp_community"] then
    assign_query (json_dumps [("cmd", cmd); ("afi", "dual"); ("target", ipprefix)]) ;;;
    if re_match re_new_format ipprefix then
      let msg := ipprefix +:+ " matched new-format community." in
      code <- load o_code ;;
      query <- read_query ;;
      ret (Some (msg, success code, d_address, query))
    else if re_match re_32bit ipprefix then
      let msg := ipprefix +:+ " matched 32 bit community." in
      code <- load o_code ;;
      query <- read_query ;;
      ret (Some (msg, success code, d_address, query))
    else if re_match re_large ipprefix then
      let msg := ipprefix +:+ " matched large community." in
      code <- load o_code ;;
      query <- read_query ;;
      ret (Some (msg, success code, d_address, query))
    else
      let msg := ipprefix +:+ " is an invalid BGP Community Format." in
      code <- load o_code ;;
      query <- read_query ;;
      logger_error (commas [msg; pretty (danger code); d_name; query]) ;;;
      code <- load o_code ;;
      query <- read_query ;;
      ret (Some (msg, danger code, d_address, query))
  else if str_in cmd ["bgp_aspath"] then
    if re_match re_aspath ipprefix then
      assign_query (json_dumps [("cmd", cmd); ("afi", "dual"); ("target", ipprefix)]) ;;;
      let msg := ipprefix +:+ " matched AS_PATH regex." in
      code <- load o_code ;;
      query <- read_query ;;
      ret (Some (msg, success code, d_address, query))
    else
      let msg := ipprefix +:+ " is an invalid AS_PATH regex." in
      code <- load o_code ;;
      logger_error (commas [msg; pretty (danger code); d_name; cmd; ipprefix]) ;;;
      code <- load o_code ;;
      query <- read_query ;;
      ret (Some (msg, danger code, d_address, query))
  else if str_in cmd ["bgp_route"] then
    try_except
      (v <- lift (IPNetwork_ip_version ipprefix) ;;
       if v =? 4 then
         assign_query (json_dumps [("cmd", cmd); ("afi", "ipv4"); ("target", ipprefix)]) ;;;
         let msg := ipprefix +:+ " is a valid IPv4 Adddress." in
         code <- load o_code ;;
         query <- read_query ;;
         ret (Some (msg, success code, d_address, query))
       else
         v <- lift (IPNetwork_ip_version ipprefix) ;;
         if v =? 6 then
           assign_query (json_dumps [("cmd", cmd); ("afi", "ipv6"); ("target", ipprefix)]) ;;;
           let msg := ipprefix +:+ " is a valid IPv6 Adddress." in
           code <- load o_code ;;
           query <- read_query ;;
           ret (Some (msg, success code, d_address, query))
         else ret None)
      (let msg := ipprefix +:+ " is an invalid IP Address." in
       code <- load o_code ;;
       query <- read_query ;;
       logger_error (commas [msg; pretty (danger code); d_name; query]) ;;;
       code <- load o_code ;;
       query <- read_query ;;
       ret (Some (msg, danger code, d_address, query)))
  else if str_in cmd ["ping"; "traceroute"] then
    try_except
      (v <- lift (IPNetwork_ip_version ipprefix) ;;
       if v =? 4 then
         assign_query (json_dumps [("cmd", cmd); ("afi", "ipv4");
                                   ("source", d_src_addr_ipv4); ("target", ipprefix)]) ;;;
         let msg := ipprefix +:+ " is a valid IPv4 Adddress." in
         code <- load o_code ;;
         query <- read_query ;;
         ret (Some (msg, success code, d_address, query))
       else
         v <- lift (IPNetwork_ip_version ipprefix) ;;
         if v =? 6 then
           assign_query (json_dumps [("cmd", cmd); ("afi", "ipv6");
                                     ("source", d_src_addr_ipv6); ("target", ipprefix)]) ;;;
           let msg := ipprefix +:+ " is a valid IPv6 Adddress." in
           code <- load o_code ;;
           query <- read_query ;;
           ret (Some (msg, success code, d_address, query))
         else ret None)
      (let msg := ipprefix +:+ " is an invalid IP Address." in
       code <- load o_code ;;
       query <- read_query ;;
       logger_error (commas [msg; pretty (danger code); d_name; query]) ;;;
       code <- load o_code ;;
       query <- read_query ;;
       ret (Some (msg, danger code, d_name, query)))
  else
    let msg := "Command " +:+ cmd +:+ " not found." in
    code <- load o_code ;;
    query <- read_query ;;
    logger_error (commas [msg; pretty (danger code); d_name; query]) ;;;
    code <- load o_code ;;
    query <- read_query ;;
    ret (Some (msg, danger code, d_name, query)).

(** [frr(cmd, ipprefix, device)], [device] being the dict of the store. *)
Definition frr (cmd ipprefix : string)
    : objects * list log_record
      -> (objects * list log_record) * outcome (option frr_result) :=
  run (frr_body cmd ipprefix).

(** [command.__init__(self, type)].  The attributes it sets are the dicts
    of [commands] themselves, not copies; [ssh] only reads them
    ([c.dual[cmd]]), so each is held by its content. *)
Definition command___init__ (cmd ipprefix d_name d_type : string)
    (type : string) : M frame (command * option ssh_result) :=
  commands <- load o_commands ;;
  match commands !! type with
  | Some entry =>
      ret ({| dual := Some (entry_dual entry);
              ipv4 := Some (entry_ipv4 entry);
              ipv6 := Some (entry_ipv6 entry) |}, None)
  | None =>
      let msg := d_type +:+ " is an unsupported network operating system." in
      code <- load o_code ;;
      logger_error (commas [msg; pretty (danger code); d_name; cmd; ipprefix]) ;;;
      code <- load o_code ;;
      ret ({| dual := None; ipv4 := None; ipv6 := None |},
           Some (msg, danger code, d_name, cmd, ipprefix))
  end.

Definition ssh_body (cmd ipprefix : string) : M frame (option ssh_result) :=
  device <- load o_device ;;
  let d_address := address device in
  let d_src_addr_ipv4 := src_addr_ipv4 device in
  let d_src_addr_ipv6 := src_addr_ipv6 device in
  let d_name := name device in
  let d_type := type device in
  logger_info ("Constructing " +:+ cmd +:+ " command for "
               +:+ d_name +:+ " to " +:+ ipprefix +:+ "...") ;;;
  c <- instantiate (command___init__ cmd ipprefix d_name d_type d_type) ;;
  if String.eqb cmd "bgp_community" then
    if re_match re_new_format ipprefix then
      c_dual <- getattr "dual" (dual c) ;;
      mc <- getitem c_dual cmd ;;
      command <- lift (str_format mc [("target", ipprefix)]) ;;
      let msg := ipprefix +:+ " matched new-format community." in
      code <- load o_code ;;
      ret (Some (msg, success code, d_address, d_type, command))
    else if re_match re_32bit ipprefix then
      c_dual <- getattr "dual" (dual c) ;;
      mc <- getitem c_dual cmd ;;
      command <- lift (str_format mc [("target", ipprefix)]) ;;
      let msg := ipprefix +:+ " matched 32 bit community." in
      code <- load o_code ;;
      ret (Some (msg, success code, d_address, d_type, command))
    else if re_match re_large ipprefix then
      c_dual <- getattr "dual" (dual c) ;;
      mc <- getitem c_dual cmd ;;
      command <- lift (str_format mc [("target", ipprefix)]) ;;
      let msg := ipprefix +:+ " matched large community." in
      code <- load o_code ;;
      ret (Some (msg, success code, d_address, d_type, command))
    else
      let msg := ipprefix +:+ " is an invalid BGP Community Format." in
      code <- load o_code ;;
      logger_error (commas [msg; pretty (danger code); d_name; cmd; ipprefix]) ;;;
      code <- load o_code ;;
      ret (Some (msg, danger code, d_name, cmd, ipprefix))
  else if String.eqb cmd "bgp_aspath" then
    if re_match re_aspath ipprefix then
      c_dual <- getattr "dual" (dual c) ;;
      mc <- getitem c_dual cmd ;;
      command <- lift (str_format mc [("target", ipprefix)]) ;;
      let msg := ipprefix +:+ " matched AS_PATH regex." in
      code <- load o_code ;;
      ret (Some (msg, success code, d_address, d_type, command))
    else
      let msg := ipprefix +:+ " is an invalid AS_PATH regex." in
      code <- load o_code ;;
      logger_error (commas [msg; pretty (danger code); d_name; cmd; ipprefix]) ;;;
      code <- load o_code ;;
      ret (Some (msg, danger code, d_name, cmd, ipprefix))
  else if String.eqb cmd "bgp_route" then
    try_except
      (v <- lift (IPNetwork_ip_version ipprefix) ;;
       if v =? 4 then
         c_ipv4 <- getattr "ipv4" (ipv4 c) ;;
         mc <- getitem c_ipv4 cmd ;;
         command <- lift (str_format mc [("target", ipprefix)]) ;;
         let msg := ipprefix +:+ " is a valid IPv4 Adddress." in
         code <- load o_code ;;
         ret (Some (msg, success code, d_address, d_type, command))
       else
         v <- lift (IPNetwork_ip_version ipprefix) ;;
         if v =? 6 then
           c_ipv6 <- getattr "ipv6" (ipv6 c) ;;
           mc <- getitem c_ipv6 cmd ;;
           command <- lift (str_format mc [("target", ipprefix)]) ;;
           let msg := ipprefix +:+ " is a valid IPv6 Adddress." in
           code <- load o_code ;;
           ret (Some (msg, success code, d_address, d_type, command))
         else ret None)
      (let msg := ipprefix +:+ " is an invalid IP Address." in
       code <- load o_code ;;
       logger_error (commas [msg; pretty (danger code); d_name; cmd; ipprefix]) ;;;
       code <- load o_code ;;
       ret (Some (msg, danger code, d_name, cmd, ipprefix)))
  else if str_in cmd ["ping"; "traceroute"] then
    try_except
      (v <- lift (IPNetwork_ip_version ipprefix) ;;
       if v =? 4 then
         c_ipv4 <- getattr "ipv4" (ipv4 c) ;;
         mc <- getitem c_ipv4 cmd ;;
         command <- lift (str_format mc [("target", ipprefix);
                                         ("src_addr_ipv4", d_src_addr_ipv4)]) ;;
         let msg := ipprefix +:+ " is a valid IPv4 Adddress." in
         code <- load o_code ;;
         ret (Some (msg, success code, d_address, d_type, command))
       else
         v <- lift (IPNetwork_ip_version ipprefix) ;;
         if v =? 6 then
           c_ipv6 <- getattr "ipv6" (ipv6 c) ;;
           mc <- getitem c_ipv6 cmd ;;
           command <- lift (str_format mc [("target", ipprefix);
                                           ("src_addr_ipv6", d_src_addr_ipv6)]) ;;
           let msg := ipprefix +:+ " is a valid IPv6 Adddress." in
           code <- load o_code ;;
           ret (Some (msg, success code, d_address, d_type, command))
         else ret None)
      (let msg := ipprefix +:+ " is an invalid IP Address." in
       code <- load o_code ;;
       logger_error (commas [msg; pretty (danger code); d_name; cmd; ipprefix]) ;;;
       code <- load o_code ;;
       ret (Some (msg, danger code, d_name, cmd, ipprefix)))
  else
    let msg := "Command " +:+ cmd +:+ " not found." in
    code <- load o_code ;;
    logger_error (commas [msg; pretty (danger code); d_name; cmd; ipprefix]) ;;;
    code <- load o_code ;;
    ret (Some (msg, danger code, d_name, cmd, ipprefix)).

(** [ssh(cmd, ipprefix, device)], [device] being the dict of the store. *)
Definition ssh (cmd ipprefix : string)
    : objects * list log_record
      -> (objects * list log_record) * outcome (option ssh_result) :=
  run (ssh_body cmd ipprefix).

(** The constants [frr] and [ssh] of the first part take, read off a
    store. *)
Definition globals_of (o : objects) : Globals :=
  Build_Globals IPNetwork_ip_version json_dumps str_format (o_commands o).

End Builders.

(** Not from the source: a body in the same monad that does assign to an
    object it can reach (it counts its calls in [code.success]).  What is
    proved of [frr] and [ssh] below fails for it. *)
Definition counting : M frame (option Z) :=
  code <- load o_code ;;
  store (fun o => Objects (o_commands o)
                          {| success := success code + 1;
                             warning := warning code;
                             danger := danger code |}
                          (o_device o)) ;;;
  ret (Some (success code)).

(** The sample libraries and a store to run the two builders on. *)
Definition sample_libraries : Libraries :=
  Build_Libraries Sample.IPNetwork_ip_version Sample.json_dumps Sample.str_format.

Definition sample_objects : objects :=
  Objects Sample.commands code Sample.router1.

End World.

(** * Tactics *)

(** Unfolds one call down to the runtime primitives. *)
Ltac py_unfold :=
  unfold frr, ssh, call, frr_body, ssh_body, command___init__, instantiate,
    try_except, bind, ret, raise, lift, logger_info, logger_error,
    assign, read, getitem, getattr.

(** Runs a call whose tests are decided by the equations in the context. *)
Ltac py_run :=
  py_unfold; cbn;
  repeat match goal with
         | H : ?x = _ |- context [?x] => rewrite H; cbn
         end;
  try reflexivity.

(** Case analysis on the next test a call depends on. *)
Ltac py_case :=
  match goal with
  | |- context [String.eqb ?a ?b] => destruct (String.eqb a b) eqn:?
  | |- context [re_match ?p ?s] => destruct (re_match p s) eqn:?
  | |- context [IPNetwork_ip_version ?s] => destruct (IPNetwork_ip_version s) eqn:?
  | |- context [Z.eqb ?a ?b] => destruct (Z.eqb a b) eqn:?
  | |- context [str_format ?a ?b] => destruct (str_format a b) eqn:?
  | |- context [@lookup _ _ _ _ ?k ?m] => destruct (m !! k) eqn:?
  end.

Ltac py_cases := py_unfold; cbn; repeat (py_case; cbn).

(** The same two for the builders on the store. *)
Ltac world_unfold :=
  unfold World.frr, World.ssh, World.run, World.frr_body, World.ssh_body,
    World.command___init__, World.load, World.store, World.assign_query,
    World.read_query, instantiate, try_except, bind, ret, raise, lift,
    logger_info, logger_error, getitem, getattr.

Ltac world_case :=
  match goal with
  | |- context [String.eqb ?a ?b] => destruct (String.eqb a b) eqn:?
  | |- context [re_match ?p ?s] => destruct (re_match p s) eqn:?
  | |- context [World.IPNetwork_ip_version ?s] =>
      destruct (World.IPNetwork_ip_version s) eqn:?
  | |- context [Z.eqb ?a ?b] => destruct (Z.eqb a b) eqn:?
  | |- context [World.str_format ?a ?b] => destruct (World.str_format a b) eqn:?
  | |- context [@lookup _ _ _ _ ?k ?m] => destruct (m !! k) eqn:?
  end.

Ltac world_cases := world_unfold; cbn; repeat (world_case; cbn).


(** * Properties *)

(** ** Strings *)

(* stdpp keeps [append] folded under [simpl]; the proofs below compute
   with it. *)
#[local] Arguments append !s1 s2 / : simpl nomatch.

Lemma app_empty_r (s : string) : s +:+ "" = s.
Proof. induction s as [|c s IH]; simpl; [reflexivity | now rewrite IH]. Qed.

Lemma app_assoc' (a b c : string) : (a +:+ b) +:+ c = a +:+ (b +:+ c).
Proof. induction a as [|x a IH]; simpl; [reflexivity | now rewrite IH]. Qed.

Lemma length_app (a b : string) :
  String.length (a +:+ b) = (String.length a + String.length b)%nat.
Proof. induction a as [|x a IH]; simpl; [reflexivity | now rewrite IH]. Qed.

Lemma all_chars_app (p : ascii -> bool) (a b : string) :
  all_chars p (a +:+ b) = all_chars p a && all_chars p b.
Proof.
  induction a as [|x a IH]; simpl; [reflexivity |].
  rewrite IH. now rewrite andb_assoc.
Qed.

(** ** [re.match] on the patterns of the module *)

Section RegexFacts.

(** What [cl{lo,hi}] followed by [k] accepts: a prefix of [lo] to [hi]
    characters of the class, and [k] on what is left. *)
Lemma rep_true (cl : cclass) (k : nat -> string -> bool) (s : string) :
  forall lo hi pos,
    rep cl k lo hi pos s = true <->
    exists pre post,
      s = pre +:+ post /\ all_chars (mem cl) pre = true /\
      (lo <= String.length pre <= hi)%nat /\
      k (pos + String.length pre)%nat post = true.
Proof.
  induction s as [|c s IH]; intros lo hi pos; simpl.
  - rewrite orb_false_r, andb_true_iff, Nat.eqb_eq. split.
    + intros [-> Hk]. exists "", "". simpl. rewrite Nat.add_0_r.
      repeat split; auto; lia.
    + intros (pre & post & Hs & _ & Hlen & Hk).
      destruct pre; [|discriminate]. simpl in *. subst post.
      rewrite Nat.add_0_r in Hk. split; [lia | assumption].
  - rewrite orb_true_iff, andb_true_iff, Nat.eqb_eq. split.
    + intros [[-> Hk] | H].
      * exists "", (String c s). simpl. rewrite Nat.add_0_r.
        repeat split; auto; lia.
      * destruct hi as [|hi]; [discriminate |].
        apply andb_true_iff in H as [Hc H].
        apply IH in H as (pre & post & -> & Hall & Hlen & Hk).
        exists (String c pre), post. simpl. rewrite Hc, Hall.
        replace (pos + S (String.length pre))%nat
          with (S pos + String.length pre)%nat by lia.
        repeat split; auto; lia.
    + intros (pre & post & Hs & Hall & Hlen & Hk).
      destruct pre as [|c' pre]; simpl in *.
      * left. subst post. rewrite Nat.add_0_r in Hk. split; [lia | assumption].
      * right. injection Hs as <- ->.
        apply andb_true_iff in Hall as [Hc Hall].
        destruct hi as [|hi]; [lia |].
        rewrite Hc. simpl. apply IH. exists pre, post.
        replace (S pos + String.length pre)%nat
          with (pos + S (String.length pre))%nat by lia.
        repeat split; auto; lia.
Qed.

(** [.*] followed by nothing always matches, if only the empty prefix. *)
Lemma re_aspath_always (s : string) : re_match re_aspath s = true.
Proof. unfold re_match. destruct s; reflexivity. Qed.

Lemma at_eol_true (s : string) : at_eol s = true <-> s = "" \/ s = nl.
Proof.
  destruct s as [|c [|c' s]]; simpl; split; auto; try discriminate.
  - intros H. apply Ascii.eqb_eq in H. subst. now right.
  - intros [H | H]; [discriminate |]. injection H as ->. reflexivity.
  - intros [H | H]; discriminate.
Qed.

Lemma lit_true (c : ascii) (p : list item) (pos : nat) (s : string) :
  matches (Lit c :: p) pos s = true <->
  exists s', s = String c s' /\ matches p (S pos) s' = true.
Proof.
  simpl. destruct s as [|c' s']; split.
  - discriminate.
  - intros (? & H & _). discriminate.
  - intros H. apply andb_true_iff in H as [Hc H].
    apply Ascii.eqb_eq in Hc. subst. eauto.
  - intros (x & H & Hm). injection H as -> ->.
    now rewrite Ascii.eqb_refl.
Qed.

End RegexFacts.

(** ** Splitting and chomping *)

Section StringFacts.

Lemma is_digit_not_colon (c : ascii) : is_digit c = true -> Ascii.eqb c ":" = false.
Proof.
  intros H. destruct (Ascii.eqb_spec c ":") as [-> | _]; [discriminate | reflexivity].
Qed.

Lemma is_digit_not_newline (c : ascii) : is_digit c = true -> Ascii.eqb c newline = false.
Proof.
  intros H. destruct (Ascii.eqb_spec c newline) as [-> | _]; [discriminate | reflexivity].
Qed.

Lemma split_on_nonempty (sep : ascii) (s : string) : split_on sep s <> [].
Proof.
  destruct s as [|c s]; simpl; [discriminate |].
  destruct (Ascii.eqb c sep); [discriminate |].
  destruct (split_on sep s); discriminate.
Qed.

(** Joining the pieces with the separator gives the string back. *)
Lemma split_on_join (sep : ascii) (s : string) :
  String.concat (String sep "") (split_on sep s) = s.
Proof.
  induction s as [|c s IH]; simpl; [reflexivity |].
  pose proof (split_on_nonempty sep s) as Hne.
  destruct (Ascii.eqb_spec c sep) as [-> | _].
  - destruct (split_on sep s) as [|w ws]; [congruence |].
    simpl in *. now rewrite IH.
  - destruct (split_on sep s) as [|w ws]; [congruence |].
    destruct ws; simpl in *; now rewrite <- IH.
Qed.

(** A string of digits is one piece; a colon after digits ends a piece. *)
Lemma split_on_digits (a : string) :
  all_chars is_digit a = true -> split_on ":" a = [a].
Proof.
  induction a as [|c a IH]; simpl; [reflexivity |].
  intros H. apply andb_true_iff in H as [Hc Ha].
  rewrite (is_digit_not_colon c Hc), (IH Ha). reflexivity.
Qed.

Lemma split_on_digits_colon (a rest : string) :
  all_chars is_digit a = true ->
  split_on ":" (a +:+ String ":" rest) = a :: split_on ":" rest.
Proof.
  induction a as [|c a IH]; simpl; [reflexivity |].
  intros H. apply andb_true_iff in H as [Hc Ha].
  rewrite (is_digit_not_colon c Hc), (IH Ha). reflexivity.
Qed.

Lemma chomp_app_nl (x : string) : chomp (x +:+ nl) = x.
Proof.
  induction x as [|c x IH]; simpl; [reflexivity |].
  rewrite IH. destruct x; simpl; now rewrite andb_false_r.
Qed.

Lemma chomp_cases (s : string) : s = chomp s \/ s = chomp s +:+ nl.
Proof.
  induction s as [|c s IH]; [now left |].
  cbn [chomp].
  destruct (Ascii.eqb_spec c newline) as [-> | _];
    [destruct s as [|c' s]; [now right |] |];
    cbn [andb is_empty];
    (destruct IH as [IH | IH]; [left | right]; cbn [append]; now rewrite <- IH).
Qed.

(** Without a newline there is nothing to chomp. *)
Lemma chomp_id (x : string) :
  all_chars (fun c => negb (Ascii.eqb c newline)) x = true -> chomp x = x.
Proof.
  induction x as [|c x IH]; simpl; [reflexivity |].
  intros H. apply andb_true_iff in H as [Hc Hx].
  apply negb_true_iff in Hc. rewrite Hc, (IH Hx). reflexivity.
Qed.

Lemma digits_no_newline (x : string) :
  all_chars is_digit x = true ->
  all_chars (fun c => negb (Ascii.eqb c newline)) x = true.
Proof.
  induction x as [|c x IH]; simpl; [reflexivity |].
  intros H. apply andb_true_iff in H as [Hc Hx].
  now rewrite (is_digit_not_newline c Hc), (IH Hx).
Qed.

Lemma digits_true (lo hi : nat) (s : string) :
  Community.digits lo hi s = true <->
  all_chars is_digit s = true /\ (lo <= String.length s <= hi)%nat.
Proof.
  unfold Community.digits.
  rewrite !andb_true_iff, !Nat.leb_le. tauto.
Qed.

End StringFacts.

(** ** The patterns against the worded syntaxes *)

Section Patterns.

(** A pattern that ends in [$] accepts [x] and [x] followed by one
    newline, for the [x] its body accepts: that is, it tests [chomp s]. *)
Lemma eol_chomp (X : string -> Prop) (s : string) :
  (forall x, X x -> all_chars (fun c => negb (Ascii.eqb c newline)) x = true) ->
  (exists x tail, s = x +:+ tail /\ X x /\ at_eol tail = true) <-> X (chomp s).
Proof.
  intros Hnl. split.
  - intros (x & tail & -> & HX & Htail).
    apply at_eol_true in Htail as [-> | ->].
    + rewrite app_empty_r, chomp_id; auto.
    + now rewrite chomp_app_nl.
  - intros HX. destruct (chomp_cases s) as [Hs | Hs].
    + exists (chomp s), "". rewrite app_empty_r. auto.
    + exists (chomp s), nl. auto.
Qed.

Lemma no_newline_app (a b : string) :
  all_chars (fun c => negb (Ascii.eqb c newline)) a = true ->
  all_chars (fun c => negb (Ascii.eqb c newline)) b = true ->
  all_chars (fun c => negb (Ascii.eqb c newline)) (a +:+ b) = true.
Proof. intros Ha Hb. now rewrite all_chars_app, Ha, Hb. Qed.

Lemma plain_32bit_true (x : string) :
  Community.plain_32bit x = true <->
  all_chars is_digit x = true /\ (1 <= String.length x <= 10)%nat.
Proof. apply digits_true. Qed.

Lemma new_format_true (x : string) :
  Community.new_format x = true <->
  exists asn nn, x = asn +:+ String ":" nn /\
    Community.digits 0 5 asn = true /\ Community.digits 1 5 nn = true.
Proof.
  unfold Community.new_format. split.
  - intros H. pose proof (split_on_join ":" x) as Hj.
    destruct (split_on ":" x) as [|asn [|nn [|? ?]]]; try discriminate.
    apply andb_true_iff in H as [Ha Hn].
    exists asn, nn. simpl in Hj. auto.
  - intros (asn & nn & -> & Ha & Hn).
    pose proof (proj1 (digits_true _ _ _) Ha) as [Ha' _].
    pose proof (proj1 (digits_true _ _ _) Hn) as [Hn' _].
    rewrite (split_on_digits_colon _ _ Ha'), (split_on_digits _ Hn').
    now rewrite Ha, Hn.
Qed.

Lemma large_true (x : string) :
  Community.large x = true <->
  exists a b c, x = a +:+ String ":" (b +:+ String ":" c) /\
    Community.digits 1 10 a = true /\ Community.digits 1 10 b = true /\
    Community.digits 1 10 c = true.
Proof.
  unfold Community.large. split.
  - intros H. pose proof (split_on_join ":" x) as Hj.
    destruct (split_on ":" x) as [|a [|b [|c [|? ?]]]]; try discriminate.
    apply andb_true_iff in H as [H Hc]. apply andb_true_iff in H as [Ha Hb].
    exists a, b, c. simpl in Hj. auto.
  - intros (a & b & c & -> & Ha & Hb & Hc).
    pose proof (proj1 (digits_true _ _ _) Ha) as [Ha' _].
    pose proof (proj1 (digits_true _ _ _) Hb) as [Hb' _].
    pose proof (proj1 (digits_true _ _ _) Hc) as [Hc' _].
    rewrite (split_on_digits_colon _ _ Ha'), (split_on_digits_colon _ _ Hb'),
      (split_on_digits _ Hc').
    now rewrite Ha, Hb, Hc.
Qed.

(** "^[0-9]{1,10}$" accepts the 32-bit syntax, up to one final newline. *)
Theorem re_32bit_chomp (s : string) :
  re_match re_32bit s = Community.plain_32bit (chomp s).
Proof.
  apply eq_iff_eq_true. unfold re_match, re_32bit. cbn [matches Nat.eqb andb].
  rewrite rep_true.
  rewrite <- (eol_chomp (fun x => Community.plain_32bit x = true)).
  - split.
    + intros (pre & post & -> & Hd & Hlen & Hk).
      rewrite andb_true_r in Hk. exists pre, post.
      rewrite plain_32bit_true. auto.
    + intros (x & tail & -> & HX & Htail).
      apply plain_32bit_true in HX as [Hd Hlen].
      exists x, tail. rewrite andb_true_r. auto.
  - intros x HX. apply plain_32bit_true in HX as [Hd _].
    now apply digits_no_newline.
Qed.

Lemma matches_rep (cl : cclass) (lo hi : nat) (p : list item) (pos : nat) (s : string) :
  matches (Rep cl lo hi :: p) pos s = rep cl (matches p) lo hi pos s.
Proof. reflexivity. Qed.

Lemma matches_eol (pos : nat) (s : string) : matches [Eol] pos s = at_eol s.
Proof. simpl. apply andb_true_r. Qed.

Lemma app_colon_assoc (a b c : string) :
  a +:+ String ":" (b +:+ c) = (a +:+ String ":" b) +:+ c.
Proof. now rewrite app_assoc'. Qed.

(** "^([0-9]{0,5})\:([0-9]{1,5})$" accepts the new-format syntax, up to
    one final newline. *)
Theorem re_new_format_chomp (s : string) :
  re_match re_new_format s = Community.new_format (chomp s).
Proof.
  apply eq_iff_eq_true. unfold re_match, re_new_format.
  change (matches (Bol :: ?p) 0 s) with (matches p 0 s).
  rewrite matches_rep, rep_true.
  rewrite <- (eol_chomp (fun x => Community.new_format x = true)).
  - split.
    + intros (asn & post & -> & Hd & Hlen & Hk).
      apply lit_true in Hk as (s' & -> & Hk).
      rewrite matches_rep in Hk.
      apply rep_true in Hk as (nn & tail & -> & Hd' & Hlen' & Hk).
      rewrite matches_eol in Hk.
      exists (asn +:+ String ":" nn), tail.
      split; [apply app_colon_assoc |]. split; [| assumption].
      apply new_format_true. exists asn, nn. rewrite !digits_true. auto.
    + intros (x & tail & -> & HX & Htail).
      apply new_format_true in HX as (asn & nn & -> & Ha & Hn).
      apply digits_true in Ha as [Hd Hlen], Hn as [Hd' Hlen'].
      exists asn, (String ":" (nn +:+ tail)).
      split; [symmetry; apply app_colon_assoc |]. do 2 (split; [assumption |]).
      apply lit_true. eexists. split; [reflexivity |].
      rewrite matches_rep. apply rep_true. exists nn, tail.
      rewrite matches_eol. auto.
  - intros x HX. apply new_format_true in HX as (asn & nn & -> & Ha & Hn).
    apply digits_true in Ha as [Hd _], Hn as [Hd' _].
    apply no_newline_app; [now apply digits_no_newline |].
    simpl. now rewrite digits_no_newline.
Qed.

(** "^([0-9]{1,10})\:([0-9]{1,10})\:[0-9]{1,10}$" accepts the large
    community syntax, up to one final newline. *)
Theorem re_large_chomp (s : string) :
  re_match re_large s = Community.large (chomp s).
Proof.
  apply eq_iff_eq_true. unfold re_match, re_large.
  change (matches (Bol :: ?p) 0 s) with (matches p 0 s).
  rewrite matches_rep, rep_true.
  rewrite <- (eol_chomp (fun x => Community.large x = true)).
  - split.
    + intros (a & post & -> & Hda & Hla & Hk).
      apply lit_true in Hk as (s' & -> & Hk).
      rewrite matches_rep in Hk.
      apply rep_true in Hk as (b & post & -> & Hdb & Hlb & Hk).
      apply lit_true in Hk as (s' & -> & Hk).
      rewrite matches_rep in Hk.
      apply rep_true in Hk as (c & tail & -> & Hdc & Hlc & Hk).
      rewrite matches_eol in Hk.
      exists (a +:+ String ":" (b +:+ String ":" c)), tail.
      split; [now rewrite (app_colon_assoc b c tail), (app_colon_assoc a _ tail) |].
      split; [| assumption].
      apply large_true. exists a, b, c. rewrite !digits_true. auto 10.
    + intros (x & tail & -> & HX & Htail).
      apply large_true in HX as (a & b & c & -> & Ha & Hb & Hc).
      apply digits_true in Ha as [Hda Hla], Hb as [Hdb Hlb], Hc as [Hdc Hlc].
      exists a, (String ":" (b +:+ String ":" (c +:+ tail))).
      split; [now rewrite (app_colon_assoc b c tail), (app_colon_assoc a _ tail) |].
      do 2 (split; [assumption |]).
      apply lit_true. eexists. split; [reflexivity |].
      rewrite matches_rep. apply rep_true.
      exists b, (String ":" (c +:+ tail)). do 3 (split; [auto |]).
      apply lit_true. eexists. split; [reflexivity |].
      rewrite matches_rep. apply rep_true. exists c, tail.
      rewrite matches_eol. auto.
  - intros x HX. apply large_true in HX as (a & b & c & -> & Ha & Hb & Hc).
    apply digits_true in Ha as [Hda _], Hb as [Hdb _], Hc as [Hdc _].
    apply no_newline_app; [now apply digits_no_newline |]. simpl.
    apply no_newline_app; [now apply digits_no_newline |]. simpl.
    now rewrite digits_no_newline.
Qed.

End Patterns.

(** ** The builders *)

(* The tests on [re.match] stay folded while a call is run. *)
#[local] Arguments re_match : simpl never.

Lemma str_in_true (x : string) (xs : list string) :
  str_in x xs = true <-> In x xs.
Proof.
  unfold str_in. rewrite existsb_exists. split.
  - intros (y & Hy & He). apply String.eqb_eq in He. now subst.
  - intros H. exists x. split; [assumption | apply String.eqb_refl].
Qed.

Section FrrFacts.
Context `{G : Globals}.

(** An address query whose target [netaddr] rejects: the handler reads
    [query], which no statement has assigned yet. *)
Lemma frr_address_query_raises (cmd t : string) (dev : Device)
    (lg : list log_record) (e : exn) :
  str_in cmd ["bgp_route"; "ping"; "traceroute"] = true ->
  IPNetwork_ip_version t = Raises e ->
  frr cmd t dev lg =
    ((lg ++ [frr_info cmd t dev])%list, Raises (UnboundLocalError "query")).
Proof.
  intros Hcmd Hip. apply str_in_true in Hcmd. simpl in Hcmd.
  destruct Hcmd as [<- | [<- | [<- | []]]]; py_run.
Qed.

(** A query type outside the five: the final [else] reads [query] too. *)
Lemma frr_unknown_command (cmd t : string) (dev : Device) (lg : list log_record) :
  str_in cmd ["bgp_community"; "bgp_aspath"; "bgp_route"; "ping"; "traceroute"]
    = false ->
  frr cmd t dev lg =
    ((lg ++ [frr_info cmd t dev])%list, Raises (UnboundLocalError "query")).
Proof.
  intros H. cbn in H. repeat (apply orb_false_iff in H as [? H]). py_run.
Qed.

(** [bgp_aspath]: the pattern [.*] matches every string. *)
Lemma frr_bgp_aspath (t : string) (dev : Device) (lg : list log_record) :
  frr "bgp_aspath" t dev lg =
    ((lg ++ [frr_info "bgp_aspath" t dev])%list,
     Returns (Some (t +:+ " matched AS_PATH regex.", success code, address dev,
                    json_dumps [("cmd", "bgp_aspath"); ("afi", "dual");
                                ("target", t)]))).
Proof. pose proof (re_aspath_always t) as H. py_run. Qed.

(** [bgp_community]: the three patterns in turn. *)
Lemma frr_bgp_community (t : string) (dev : Device) (lg : list log_record) :
  let query := json_dumps [("cmd", "bgp_community"); ("afi", "dual"); ("target", t)] in
  snd (frr "bgp_community" t dev lg) =
    Returns (Some
      (if re_match re_new_format t
       then (t +:+ " matched new-format community.", success code, address dev, query)
       else if re_match re_32bit t
       then (t +:+ " matched 32 bit community.", success code, address dev, query)
       else if re_match re_large t
       then (t +:+ " matched large community.", success code, address dev, query)
       else (t +:+ " is an invalid BGP Community Format.", danger code,
             address dev, query))).
Proof.
  py_unfold; cbn.
  destruct (re_match re_new_format t); [reflexivity |].
  destruct (re_match re_32bit t); [reflexivity |].
  destruct (re_match re_large t); reflexivity.
Qed.

Lemma frr_bgp_route_v4 (t : string) (dev : Device) (lg : list log_record) :
  IPNetwork_ip_version t = Returns 4 ->
  frr "bgp_route" t dev lg =
    ((lg ++ [frr_info "bgp_route" t dev])%list,
     Returns (Some (t +:+ " is a valid IPv4 Adddress.", success code, address dev,
                    json_dumps [("cmd", "bgp_route"); ("afi", "ipv4");
                                ("target", t)]))).
Proof. intros H. py_run. Qed.

Lemma frr_bgp_route_v6 (t : string) (dev : Device) (lg : list log_record) :
  IPNetwork_ip_version t = Returns 6 ->
  frr "bgp_route" t dev lg =
    ((lg ++ [frr_info "bgp_route" t dev])%list,
     Returns (Some (t +:+ " is a valid IPv6 Adddress.", success code, address dev,
                    json_dumps [("cmd", "bgp_route"); ("afi", "ipv6");
                                ("target", t)]))).
Proof. intros H. py_run. Qed.

Lemma frr_ping_traceroute_v4 (cmd t : string) (dev : Device) (lg : list log_record) :
  str_in cmd ["ping"; "traceroute"] = true ->
  IPNetwork_ip_version t = Returns 4 ->
  frr cmd t dev lg =
    ((lg ++ [frr_info cmd t dev])%list,
     Returns (Some (t +:+ " is a valid IPv4 Adddress.", success code, address dev,
                    json_dumps [("cmd", cmd); ("afi", "ipv4");
                                ("source", src_addr_ipv4 dev); ("target", t)]))).
Proof.
  intros Hcmd H. apply str_in_true in Hcmd. simpl in Hcmd.
  destruct Hcmd as [<- | [<- | []]]; py_run.
Qed.

Lemma frr_ping_traceroute_v6 (cmd t : string) (dev : Device) (lg : list log_record) :
  str_in cmd ["ping"; "traceroute"] = true ->
  IPNetwork_ip_version t = Returns 6 ->
  frr cmd t dev lg =
    ((lg ++ [frr_info cmd t dev])%list,
     Returns (Some (t +:+ " is a valid IPv6 Adddress.", success code, address dev,
                    json_dumps [("cmd", cmd); ("afi", "ipv6");
                                ("source", src_addr_ipv6 dev); ("target", t)]))).
Proof.
  intros Hcmd H. apply str_in_true in Hcmd. simpl in Hcmd.
  destruct Hcmd as [<- | [<- | []]]; py_run.
Qed.

End FrrFacts.

Section SshFacts.
Context `{G : Globals}.

(** A vendor the commands file does not know: [__init__] logs, then
    returns a tuple, which the instantiation turns into a [TypeError],
    for every query type and target. *)
Lemma ssh_unsupported_vendor (cmd t : string) (dev : Device) (lg : list log_record) :
  commands !! type dev = None ->
  ssh cmd t dev lg =
    ((lg ++ [ssh_info cmd t dev;
             ssh_error (type dev +:+ " is an unsupported network operating system.")
                       cmd t dev])%list,
     Raises (TypeError "__init__() should return None, not 'tuple'")).
Proof. intros H. py_run. now rewrite <- app_assoc. Qed.

(** A query type outside the five, on a known vendor. *)
Lemma ssh_unknown_command (cmd t : string) (dev : Device) (lg : list log_record)
    (entry : commands_entry) :
  commands !! type dev = Some entry ->
  str_in cmd ["bgp_community"; "bgp_aspath"; "bgp_route"; "ping"; "traceroute"]
    = false ->
  ssh cmd t dev lg =
    ((lg ++ [ssh_info cmd t dev;
             ssh_error ("Command " +:+ cmd +:+ " not found.") cmd t dev])%list,
     Returns (Some ("Command " +:+ cmd +:+ " not found.", danger code,
                    name dev, cmd, t))).
Proof.
  intros He H. cbn in H. repeat (apply orb_false_iff in H as [? H]).
  py_run. now rewrite <- app_assoc.
Qed.

(** [bgp_aspath] on a known vendor whose template renders. *)
Lemma ssh_bgp_aspath (t : string) (dev : Device) (lg : list log_record)
    (entry : commands_entry) (mc command : string) :
  commands !! type dev = Some entry ->
  entry_dual entry !! "bgp_aspath" = Some mc ->
  str_format mc [("target", t)] = Returns command ->
  ssh "bgp_aspath" t dev lg =
    ((lg ++ [ssh_info "bgp_aspath" t dev])%list,
     Returns (Some (t +:+ " matched AS_PATH regex.", success code,
                    address dev, type dev, command))).
Proof. intros He Hmc Hf. pose proof (re_aspath_always t) as H. py_run. Qed.

(** [bgp_aspath] with no template: the lookup is outside any [try], the
    [KeyError] leaves [ssh]. *)
Lemma ssh_bgp_aspath_missing_template (t : string) (dev : Device)
    (lg : list log_record) (entry : commands_entry) :
  commands !! type dev = Some entry ->
  entry_dual entry !! "bgp_aspath" = None ->
  ssh "bgp_aspath" t dev lg =
    ((lg ++ [ssh_info "bgp_aspath" t dev])%list, Raises (KeyError "bgp_aspath")).
Proof. intros He Hmc. pose proof (re_aspath_always t) as H. py_run. Qed.

(** An address query whose target [netaddr] rejects. *)
Lemma ssh_address_query_invalid (cmd t : string) (dev : Device)
    (lg : list log_record) (entry : commands_entry) (e : exn) :
  commands !! type dev = Some entry ->
  str_in cmd ["bgp_route"; "ping"; "traceroute"] = true ->
  IPNetwork_ip_version t = Raises e ->
  ssh cmd t dev lg =
    ((lg ++ [ssh_info cmd t dev;
             ssh_error (t +:+ " is an invalid IP Address.") cmd t dev])%list,
     Returns (Some (t +:+ " is an invalid IP Address.", danger code,
                    name dev, cmd, t))).
Proof.
  intros He Hcmd Hip. apply str_in_true in Hcmd. simpl in Hcmd.
  destruct Hcmd as [<- | [<- | [<- | []]]]; py_run; now rewrite <- app_assoc.
Qed.

(** An address query with a valid IPv4 target but no template for it:
    the lookup is inside the [try], the bare [except] catches its
    [KeyError], and the result is that of an invalid address. *)
Lemma ssh_address_query_missing_template_v4 (cmd t : string) (dev : Device)
    (lg : list log_record) (entry : commands_entry) :
  commands !! type dev = Some entry ->
  str_in cmd ["bgp_route"; "ping"; "traceroute"] = true ->
  IPNetwork_ip_version t = Returns 4 ->
  entry_ipv4 entry !! cmd = None ->
  ssh cmd t dev lg =
    ((lg ++ [ssh_info cmd t dev;
             ssh_error (t +:+ " is an invalid IP Address.") cmd t dev])%list,
     Returns (Some (t +:+ " is an invalid IP Address.", danger code,
                    name dev, cmd, t))).
Proof.
  intros He Hcmd Hip Hmc. apply str_in_true in Hcmd. simpl in Hcmd.
  destruct Hcmd as [<- | [<- | [<- | []]]]; py_run; now rewrite <- app_assoc.
Qed.

Lemma ssh_address_query_missing_template_v6 (cmd t : string) (dev : Device)
    (lg : list log_record) (entry : commands_entry) :
  commands !! type dev = Some entry ->
  str_in cmd ["bgp_route"; "ping"; "traceroute"] = true ->
  IPNetwork_ip_version t = Returns 6 ->
  entry_ipv6 entry !! cmd = None ->
  ssh cmd t dev lg =
    ((lg ++ [ssh_info cmd t dev;
             ssh_error (t +:+ " is an invalid IP Address.") cmd t dev])%list,
     Returns (Some (t +:+ " is an invalid IP Address.", danger code,
                    name dev, cmd, t))).
Proof.
  intros He Hcmd Hip Hmc. apply str_in_true in Hcmd. simpl in Hcmd.
  destruct Hcmd as [<- | [<- | [<- | []]]]; py_run; now rewrite <- app_assoc.
Qed.

End SshFacts.

(** ** The claims *)

(* The closed statements below run the builders on the sample globals. *)
#[local] Existing Instance Sample.globals.

(** C1 (fails for the API builder).  The claim: for every target and
    device, classifying an address-type query (bgp_route, ping, traceroute)
    in either builder returns a tuple and never raises, a parsing exception
    becoming the danger result "<target> is an invalid IP Address.".
    Here the parser rejects "not-an-ip", and [frr] leaves with
    [UnboundLocalError] for each of the three query types: its handler
    formats [query] into the log line before any assignment to it
    ([frr_address_query_raises] shows this for every rejected target).
    [ssh] on the same input returns the danger tuple. *)
Theorem frr_invalid_address_escapes :
  IPNetwork_ip_version "not-an-ip"
    = Raises (AddrFormatError "invalid IPNetwork not-an-ip") /\
  snd (frr "bgp_route" "not-an-ip" Sample.router1 [])
    = Raises (UnboundLocalError "query") /\
  snd (frr "ping" "not-an-ip" Sample.router1 [])
    = Raises (UnboundLocalError "query") /\
  snd (frr "traceroute" "not-an-ip" Sample.router1 [])
    = Raises (UnboundLocalError "query") /\
  snd (ssh "bgp_route" "not-an-ip" Sample.router1 [])
    = Returns (Some ("not-an-ip is an invalid IP Address.", danger code,
                     "router1", "bgp_route", "not-an-ip")).
Proof. vm_compute. repeat split. Qed.

(** C2 (fails).  The claim: for a device whose vendor type has no entry
    in the command template store, the direct command builder returns the
    danger result "<vendor_type> is an unsupported network operating
    system." for every query type and target.  [router2] is of a vendor
    the commands file lacks; [ssh] logs that message and then raises
    [TypeError], because the tuple is returned from [command.__init__]
    ([ssh_unsupported_vendor] shows this for every query type, target and
    such device). *)
Theorem ssh_unsupported_vendor_raises :
  commands !! type Sample.router2 = None /\
  ssh "bgp_route" "192.0.2.0/24" Sample.router2 []
    = ([(INFO, "Constructing bgp_route command for router2 to 192.0.2.0/24...");
        (ERROR, "unknown_os is an unsupported network operating system., 415, router2, bgp_route, 192.0.2.0/24")],
       Raises (TypeError "__init__() should return None, not 'tuple'")).
Proof. vm_compute. split; reflexivity. Qed.

(** C3 (fails for the address queries).  The claim: a known vendor whose
    template group lacks the entry for a valid query type makes the direct
    command builder fail with a construction error, never with the
    "invalid IP Address" danger result.  The vendor of [router3] has no
    "bgp_route" template in its "ipv6" group; for the valid IPv6 prefix
    "2001:db8::/32" [ssh] returns the "invalid IP Address" danger tuple,
    because the lookup sits inside the [try] whose bare [except] was meant
    for the address parser.  For bgp_aspath, whose lookup is outside any
    [try], the same vendor makes [ssh] raise [KeyError]. *)
Theorem ssh_missing_template_reported_as_invalid_address :
  commands !! type Sample.router3 = Some Sample.frr_os /\
  entry_ipv6 Sample.frr_os !! "bgp_route" = None /\
  IPNetwork_ip_version "2001:db8::/32" = Returns 6 /\
  snd (ssh "bgp_route" "2001:db8::/32" Sample.router3 [])
    = Returns (Some ("2001:db8::/32 is an invalid IP Address.", danger code,
                     "router3", "bgp_route", "2001:db8::/32")) /\
  snd (ssh "bgp_aspath" "_65000$" Sample.router3 [])
    = Raises (KeyError "bgp_aspath").
Proof. vm_compute. repeat split. Qed.

(** C7 (fails for the API builder).  The claim: for a query type outside
    the five and any target, the empty one included, both builders return
    the danger result "Command <query_type> not found.".  [ssh] does;
    [frr] raises [UnboundLocalError], its final [else] formatting [query]
    into the log line although no branch taken has assigned it
    ([frr_unknown_command] shows this for every such query type). *)
Theorem frr_unknown_command_raises :
  snd (frr "bgp_summary" "" Sample.router1 [])
    = Raises (UnboundLocalError "query") /\
  snd (ssh "bgp_summary" "" Sample.router1 [])
    = Returns (Some ("Command bgp_summary not found.", danger code,
                     "router1", "bgp_summary", "")).
Proof. vm_compute. split; reflexivity. Qed.

Section ValidAddress.
Context `{G : Globals}.

(** C8.  For a target the address parser accepts as version 4 or 6,
    bgp_route in the API builder returns success with the family tag of
    that version, and ping and traceroute return a query object with
    that family tag and the device's source address of that family. *)
Theorem frr_valid_address_family (t : string) (dev : Device)
    (lg : list log_record) (v : Z) :
  IPNetwork_ip_version t = Returns v ->
  v = 4 \/ v = 6 ->
  let afi := if v =? 4 then "ipv4" else "ipv6" in
  let source := if v =? 4 then src_addr_ipv4 dev else src_addr_ipv6 dev in
  let msg := t +:+ (if v =? 4 then " is a valid IPv4 Adddress."
                    else " is a valid IPv6 Adddress.") in
  snd (frr "bgp_route" t dev lg)
    = Returns (Some (msg, success code, address dev,
                     json_dumps [("cmd", "bgp_route"); ("afi", afi);
                                 ("target", t)])) /\
  snd (frr "ping" t dev lg)
    = Returns (Some (msg, success code, address dev,
                     json_dumps [("cmd", "ping"); ("afi", afi);
                                 ("source", source); ("target", t)])) /\
  snd (frr "traceroute" t dev lg)
    = Returns (Some (msg, success code, address dev,
                     json_dumps [("cmd", "traceroute"); ("afi", afi);
                                 ("source", source); ("target", t)])).
Proof.
  intros Hip [-> | ->]; cbn zeta; cbn [Z.eqb Pos.eqb].
  - rewrite (frr_bgp_route_v4 _ _ _ Hip),
      (frr_ping_traceroute_v4 "ping" _ _ _ eq_refl Hip),
      (frr_ping_traceroute_v4 "traceroute" _ _ _ eq_refl Hip).
    repeat split.
  - rewrite (frr_bgp_route_v6 _ _ _ Hip),
      (frr_ping_traceroute_v6 "ping" _ _ _ eq_refl Hip),
      (frr_ping_traceroute_v6 "traceroute" _ _ _ eq_refl Hip).
    repeat split.
Qed.

End ValidAddress.

(** The example of the specification: traceroute to "2001:db8::1" from a
    device whose IPv6 source address is "2001:db8::ff". *)
Lemma frr_valid_address_family_witness :
  IPNetwork_ip_version "2001:db8::1" = Returns 6 /\
  snd (frr "bgp_route" "2001:db8::1" Sample.router1 [])
    = Returns (Some ("2001:db8::1 is a valid IPv6 Adddress.", 200, "192.0.2.1",
                     json_dumps [("cmd", "bgp_route"); ("afi", "ipv6");
                                 ("target", "2001:db8::1")])) /\
  snd (frr "ping" "2001:db8::1" Sample.router1 [])
    = Returns (Some ("2001:db8::1 is a valid IPv6 Adddress.", 200, "192.0.2.1",
                     json_dumps [("cmd", "ping"); ("afi", "ipv6");
                                 ("source", "2001:db8::ff");
                                 ("target", "2001:db8::1")])) /\
  snd (frr "traceroute" "2001:db8::1" Sample.router1 [])
    = Returns (Some ("2001:db8::1 is a valid IPv6 Adddress.", 200, "192.0.2.1",
                     json_dumps [("cmd", "traceroute"); ("afi", "ipv6");
                                 ("source", "2001:db8::ff");
                                 ("target", "2001:db8::1")])).
Proof.
  split; [reflexivity |].
  apply (frr_valid_address_family "2001:db8::1" Sample.router1 [] 6);
    [reflexivity | right; reflexivity].
Defined.

Section Shape.
Context `{G : Globals}.

(** Every tuple [frr] returns. *)
Lemma frr_returns_inv (cmd t : string) (dev : Device) (lg : list log_record)
    (m : string) (st : Z) (a q : string) :
  snd (frr cmd t dev lg) = Returns (Some (m, st, a, q)) ->
  a = address dev /\ (st = success code \/ st = danger code).
Proof. py_cases; intros [=]; subst; auto. Qed.

(** Every tuple [ssh] returns: a success tuple with the command rendered
    from a template of the device's vendor, or a danger tuple. *)
Lemma ssh_returns_inv (cmd t : string) (dev : Device) (lg : list log_record)
    (m : string) (st : Z) (a ty c : string) :
  snd (ssh cmd t dev lg) = Returns (Some (m, st, a, ty, c)) ->
  (st = success code /\ a = address dev /\ ty = type dev /\
   exists entry group mc kw,
     commands !! type dev = Some entry /\
     In group [entry_dual entry; entry_ipv4 entry; entry_ipv6 entry] /\
     group !! cmd = Some mc /\ In ("target", t) kw /\
     str_format mc kw = Returns c)
  \/ (st = danger code /\ a = name dev /\ ty = cmd /\ c = t).
Proof.
  py_cases; intros [=]; subst; auto.
  all: left; repeat split; eauto 12 using in_eq, in_cons.
Qed.

(** C4 (amended).  Every tuple the API builder returns has the device's
    address as its third element.  Every tuple the direct command
    builder returns is either a success tuple, with the device's address,
    the vendor type and the command rendered from a template of that
    vendor for the query type, or a danger tuple, with the device's name,
    the query type and the target in these places. *)
Theorem builders_tuple_shape (cmd t : string) (dev : Device) (lg : list log_record) :
  (forall m st a q,
      snd (frr cmd t dev lg) = Returns (Some (m, st, a, q)) ->
      a = address dev) /\
  (forall m st a ty c,
      snd (ssh cmd t dev lg) = Returns (Some (m, st, a, ty, c)) ->
      (st = success code /\ a = address dev /\ ty = type dev /\
       exists entry group mc kw,
         commands !! type dev = Some entry /\
         In group [entry_dual entry; entry_ipv4 entry; entry_ipv6 entry] /\
         group !! cmd = Some mc /\ In ("target", t) kw /\
         str_format mc kw = Returns c)
      \/ (st = danger code /\ a = name dev /\ ty = cmd /\ c = t)).
Proof.
  split.
  - intros m st a q H. now apply frr_returns_inv in H.
  - intros m st a ty c H. now apply ssh_returns_inv in H.
Qed.

(** C10.  Every tuple either builder returns carries the success code
    (200) or the danger code (415), never the warning code (405). *)
Theorem status_is_success_or_danger (cmd t : string) (dev : Device)
    (lg : list log_record) :
  (success code = 200 /\ warning code = 405 /\ danger code = 415) /\
  (forall m st a q,
      snd (frr cmd t dev lg) = Returns (Some (m, st, a, q)) ->
      (st = success code \/ st = danger code) /\ st <> warning code) /\
  (forall m st a ty c,
      snd (ssh cmd t dev lg) = Returns (Some (m, st, a, ty, c)) ->
      (st = success code \/ st = danger code) /\ st <> warning code).
Proof.
  split; [repeat split |]. split.
  - intros m st a q H. apply frr_returns_inv in H as [_ [-> | ->]];
      (split; [auto | discriminate]).
  - intros m st a ty c H.
    apply ssh_returns_inv in H as [(-> & _) | (-> & _)];
      (split; [auto | discriminate]).
Qed.

End Shape.

(** C4 (as claimed, fails).  The claim: in every branch of both builders,
    failure branches included, the third element of the tuple is the
    device's address, and in direct-command mode the fourth is the vendor
    type and the fifth the rendered command.  The danger tuple [ssh]
    returns for the community "abc" carries the device's name, the query
    type and the target instead. *)
Lemma ssh_danger_tuple_carries_name :
  snd (ssh "bgp_community" "abc" Sample.router1 [])
    = Returns (Some ("abc is an invalid BGP Community Format.", danger code,
                     "router1", "bgp_community", "abc")) /\
  "router1" <> address Sample.router1 /\
  "bgp_community" <> type Sample.router1.
Proof. split; [reflexivity | split; discriminate]. Qed.

Lemma builders_tuple_shape_witness :
  (snd (frr "bgp_community" "abc" Sample.router1 [])
     = Returns (Some ("abc is an invalid BGP Community Format.", danger code,
                      "192.0.2.1",
                      json_dumps [("cmd", "bgp_community"); ("afi", "dual");
                                  ("target", "abc")])) /\
   "192.0.2.1" = address Sample.router1) /\
  (snd (ssh "ping" "2001:db8::1" Sample.router1 [])
     = Returns (Some ("2001:db8::1 is a valid IPv6 Adddress.", success code,
                      "192.0.2.1", "cisco_ios",
                      "ping ipv6 2001:db8::1 source 2001:db8::ff")) /\
   ((success code = success code /\ "192.0.2.1" = address Sample.router1 /\
     "cisco_ios" = type Sample.router1 /\
     exists entry group mc kw,
       commands !! type Sample.router1 = Some entry /\
       In group [entry_dual entry; entry_ipv4 entry; entry_ipv6 entry] /\
       group !! "ping" = Some mc /\ In ("target", "2001:db8::1") kw /\
       str_format mc kw
         = Returns "ping ipv6 2001:db8::1 source 2001:db8::ff")
    \/ (success code = danger code /\ "192.0.2.1" = name Sample.router1 /\
        "cisco_ios" = "ping" /\
        "ping ipv6 2001:db8::1 source 2001:db8::ff" = "2001:db8::1"))).
Proof.
  destruct (builders_tuple_shape "bgp_community" "abc" Sample.router1 [])
    as [Hfrr _].
  destruct (builders_tuple_shape "ping" "2001:db8::1" Sample.router1 [])
    as [_ Hssh].
  split; (split; [reflexivity |]).
  - eapply Hfrr. reflexivity.
  - eapply Hssh. reflexivity.
Defined.

Lemma status_is_success_or_danger_witness :
  (snd (frr "bgp_community" "abc" Sample.router1 [])
     = Returns (Some ("abc is an invalid BGP Community Format.", 415,
                      "192.0.2.1",
                      json_dumps [("cmd", "bgp_community"); ("afi", "dual");
                                  ("target", "abc")])) /\
   (415 = success code \/ 415 = danger code) /\ 415 <> warning code) /\
  (snd (ssh "ping" "2001:db8::1" Sample.router1 [])
     = Returns (Some ("2001:db8::1 is a valid IPv6 Adddress.", 200,
                      "192.0.2.1", "cisco_ios",
                      "ping ipv6 2001:db8::1 source 2001:db8::ff")) /\
   (200 = success code \/ 200 = danger code) /\ 200 <> warning code).
Proof.
  destruct (status_is_success_or_danger "bgp_community" "abc" Sample.router1 [])
    as (_ & Hfrr & _).
  destruct (status_is_success_or_danger "ping" "2001:db8::1" Sample.router1 [])
    as (_ & _ & Hssh).
  split; (split; [reflexivity |]).
  - eapply Hfrr. reflexivity.
  - eapply Hssh. reflexivity.
Defined.

Section CommunityAndAsPath.
Context `{G : Globals}.

(** [bgp_community] in [frr], read against the worded syntaxes: the
    target is tested without one final newline, the three syntaxes in
    turn. *)
Lemma frr_bgp_community_by_syntax (t : string) (dev : Device) (lg : list log_record) :
  let query := json_dumps [("cmd", "bgp_community"); ("afi", "dual"); ("target", t)] in
  snd (frr "bgp_community" t dev lg) =
    Returns (Some
      (if Community.new_format (chomp t)
       then (t +:+ " matched new-format community.", success code, address dev, query)
       else if Community.plain_32bit (chomp t)
       then (t +:+ " matched 32 bit community.", success code, address dev, query)
       else if Community.large (chomp t)
       then (t +:+ " matched large community.", success code, address dev, query)
       else (t +:+ " is an invalid BGP Community Format.", danger code,
             address dev, query))).
Proof.
  cbn zeta. rewrite frr_bgp_community.
  now rewrite re_new_format_chomp, re_32bit_chomp, re_large_chomp.
Qed.

(** The same for [ssh], on a vendor whose "dual" template renders. *)
Lemma ssh_bgp_community_by_syntax (t : string) (dev : Device) (lg : list log_record)
    (entry : commands_entry) (mc command : string) :
  commands !! type dev = Some entry ->
  entry_dual entry !! "bgp_community" = Some mc ->
  str_format mc [("target", t)] = Returns command ->
  snd (ssh "bgp_community" t dev lg) =
    Returns (Some
      (if Community.new_format (chomp t)
       then (t +:+ " matched new-format community.", success code,
             address dev, type dev, command)
       else if Community.plain_32bit (chomp t)
       then (t +:+ " matched 32 bit community.", success code,
             address dev, type dev, command)
       else if Community.large (chomp t)
       then (t +:+ " matched large community.", success code,
             address dev, type dev, command)
       else (t +:+ " is an invalid BGP Community Format.", danger code,
             name dev, "bgp_community", t))).
Proof.
  intros He Hmc Hf.
  rewrite <- re_new_format_chomp, <- re_32bit_chomp, <- re_large_chomp.
  py_unfold; cbn. rewrite He; cbn.
  destruct (re_match re_new_format t); cbn;
    [rewrite Hmc; cbn; now rewrite Hf |].
  destruct (re_match re_32bit t); cbn;
    [rewrite Hmc; cbn; now rewrite Hf |].
  destruct (re_match re_large t); cbn;
    [rewrite Hmc; cbn; now rewrite Hf | reflexivity].
Qed.

(** On a target that does not end in a newline, [frr] accepts exactly
    the three worded syntaxes. *)
Lemma frr_bgp_community_no_newline (t : string) (dev : Device) (lg : list log_record) :
  chomp t = t ->
  exists m q,
    snd (frr "bgp_community" t dev lg)
      = Returns (Some (m, (if Community.syntax t then success code else danger code),
                       address dev, q)) /\
    (Community.syntax t = false ->
     m = t +:+ " is an invalid BGP Community Format.").
Proof.
  intros Ht. rewrite frr_bgp_community_by_syntax, Ht. unfold Community.syntax.
  destruct (Community.new_format t); [eexists _, _; split; [reflexivity | discriminate] |].
  destruct (Community.plain_32bit t); [eexists _, _; split; [reflexivity | discriminate] |].
  destruct (Community.large t); eexists _, _; split; try reflexivity; discriminate.
Qed.

(** C6 (amended).  bgp_aspath accepts every target string, the empty
    one included: the API builder returns success with family tag dual
    for every target, and so does the direct command builder on a
    device whose vendor has a "bgp_aspath" template that renders. *)
Theorem bgp_aspath_accepts_every_string (t : string) (dev : Device)
    (lg : list log_record) :
  snd (frr "bgp_aspath" t dev lg)
    = Returns (Some (t +:+ " matched AS_PATH regex.", success code, address dev,
                     json_dumps [("cmd", "bgp_aspath"); ("afi", "dual");
                                 ("target", t)])) /\
  (forall entry mc command,
      commands !! type dev = Some entry ->
      entry_dual entry !! "bgp_aspath" = Some mc ->
      str_format mc [("target", t)] = Returns command ->
      snd (ssh "bgp_aspath" t dev lg)
        = Returns (Some (t +:+ " matched AS_PATH regex.", success code,
                         address dev, type dev, command))).
Proof.
  split.
  - now rewrite frr_bgp_aspath.
  - intros entry mc command He Hmc Hf.
    now rewrite (ssh_bgp_aspath _ _ _ _ _ _ He Hmc Hf).
Qed.

End CommunityAndAsPath.

(** C5 (fails on a final newline).  The claim: bgp_community accepts the
    target if and only if it matches one of the three community syntaxes,
    tested in the order new-format, 32-bit, large, and any other target
    gives the danger result "<target> is an invalid BGP Community
    Format.".  The target "65000:100" followed by a newline matches none
    of the three syntaxes, yet both builders accept it through the
    new-format pattern: [$] also matches just before a final newline
    ([re_new_format_chomp]).  On every target that does not end in a
    newline the claim holds ([frr_bgp_community_no_newline]), and
    "65000:100" itself is accepted through the new-format pattern. *)
Theorem bgp_community_accepts_trailing_newline :
  Community.syntax ("65000:100" +:+ nl) = false /\
  snd (frr "bgp_community" ("65000:100" +:+ nl) Sample.router1 [])
    = Returns (Some ("65000:100" +:+ nl +:+ " matched new-format community.",
                     success code, "192.0.2.1",
                     json_dumps [("cmd", "bgp_community"); ("afi", "dual");
                                 ("target", "65000:100" +:+ nl)])) /\
  snd (ssh "bgp_community" ("65000:100" +:+ nl) Sample.router1 [])
    = Returns (Some ("65000:100" +:+ nl +:+ " matched new-format community.",
                     success code, "192.0.2.1", "cisco_ios",
                     "show bgp all community 65000:100" +:+ nl)) /\
  snd (frr "bgp_community" "65000:100" Sample.router1 [])
    = Returns (Some ("65000:100 matched new-format community.",
                     success code, "192.0.2.1",
                     json_dumps [("cmd", "bgp_community"); ("afi", "dual");
                                 ("target", "65000:100")])).
Proof. vm_compute. repeat split. Qed.

(** The examples of the specification: "4200000000" is accepted through
    the 32-bit pattern, "1:2:3" through the large one, "abc" is refused. *)
Example bgp_community_examples :
  snd (frr "bgp_community" "4200000000" Sample.router1 [])
    = Returns (Some ("4200000000 matched 32 bit community.", success code,
                     "192.0.2.1",
                     json_dumps [("cmd", "bgp_community"); ("afi", "dual");
                                 ("target", "4200000000")])) /\
  snd (frr "bgp_community" "1:2:3" Sample.router1 [])
    = Returns (Some ("1:2:3 matched large community.", success code,
                     "192.0.2.1",
                     json_dumps [("cmd", "bgp_community"); ("afi", "dual");
                                 ("target", "1:2:3")])) /\
  snd (frr "bgp_community" "abc" Sample.router1 [])
    = Returns (Some ("abc is an invalid BGP Community Format.", danger code,
                     "192.0.2.1",
                     json_dumps [("cmd", "bgp_community"); ("afi", "dual");
                                 ("target", "abc")])).
Proof. vm_compute. repeat split. Qed.

(** C6 (as claimed, fails).  The claim: bgp_aspath accepts exactly the
    non-empty strings, the empty target being the only failure case.
    Both builders return success for the empty target. *)
Lemma bgp_aspath_accepts_empty :
  snd (frr "bgp_aspath" "" Sample.router1 [])
    = Returns (Some (" matched AS_PATH regex.", success code, "192.0.2.1",
                     json_dumps [("cmd", "bgp_aspath"); ("afi", "dual");
                                 ("target", "")])) /\
  snd (ssh "bgp_aspath" "" Sample.router1 [])
    = Returns (Some (" matched AS_PATH regex.", success code, "192.0.2.1",
                     "cisco_ios", "show bgp all regexp ")) /\
  success code <> danger code.
Proof. vm_compute. repeat split. discriminate. Qed.

Lemma bgp_aspath_accepts_every_string_witness :
  snd (frr "bgp_aspath" "_65000$" Sample.router1 [])
    = Returns (Some ("_65000$ matched AS_PATH regex.", success code, "192.0.2.1",
                     json_dumps [("cmd", "bgp_aspath"); ("afi", "dual");
                                 ("target", "_65000$")])) /\
  snd (ssh "bgp_aspath" "_65000$" Sample.router1 [])
    = Returns (Some ("_65000$ matched AS_PATH regex.", success code, "192.0.2.1",
                     "cisco_ios", "show bgp all regexp _65000$")).
Proof.
  destruct (bgp_aspath_accepts_every_string "_65000$" Sample.router1 [])
    as [Hfrr Hssh].
  split; [exact Hfrr |].
  apply (Hssh Sample.cisco_ios "show bgp all regexp {target}"); reflexivity.
Defined.

Section Repeatable.
Context `{G : Globals}.

(** A call reads nothing from the log: started on another log, it
    appends the same records and has the same outcome. *)
Lemma frr_log_independent (cmd t : string) (dev : Device) (lg : list log_record) :
  frr cmd t dev lg
    = ((lg ++ fst (frr cmd t dev []))%list, snd (frr cmd t dev [])).
Proof. py_cases; rewrite <- ?app_assoc; reflexivity. Qed.

Lemma ssh_log_independent (cmd t : string) (dev : Device) (lg : list log_record) :
  ssh cmd t dev lg
    = ((lg ++ fst (ssh cmd t dev []))%list, snd (ssh cmd t dev [])).
Proof. py_cases; rewrite <- ?app_assoc; reflexivity. Qed.

End Repeatable.

(** * Further properties of the builders *)

Section FrrOutcomes.
Context `{G : Globals}.

(** X1.  [frr] raises nothing but [UnboundLocalError] on [query], and does so
    exactly when the query type is none of the five or when the address
    parser rejects the target of an address query. *)
Theorem frr_raises_iff (cmd t : string) (dev : Device) (lg : list log_record)
    (e : exn) :
  snd (frr cmd t dev lg) = Raises e <->
  e = UnboundLocalError "query" /\
  (str_in cmd ["bgp_community"; "bgp_aspath"; "bgp_route"; "ping"; "traceroute"]
     = false
   \/ (str_in cmd ["bgp_route"; "ping"; "traceroute"] = true /\
       exists e', IPNetwork_ip_version t = Raises e')).
Proof.
  split.
  - pose proof (re_aspath_always t) as Hany. revert Hany.
    py_cases; intros Hany [=]; subst; try discriminate;
      (split; [reflexivity | cbn; eauto]).
  - intros (-> & [H | (H & e' & He')]).
    + now rewrite (frr_unknown_command _ _ _ _ H).
    + now rewrite (frr_address_query_raises _ _ _ _ _ H He').
Qed.

(** X2.  The query object of every tuple [frr] returns is the JSON text of a
    dict that carries the query type and the target as received, the
    family tag "dual" for bgp_community and bgp_aspath and "ipv4" or "ipv6"
    otherwise, and for ping and traceroute the device's source address of
    that family, under these keys in this order. *)
Theorem frr_query_payload (cmd t : string) (dev : Device) (lg : list log_record)
    (m : string) (st : Z) (a q : string) :
  snd (frr cmd t dev lg) = Returns (Some (m, st, a, q)) ->
  (str_in cmd ["bgp_community"; "bgp_aspath"] = true /\
   q = json_dumps [("cmd", cmd); ("afi", "dual"); ("target", t)])
  \/ (cmd = "bgp_route" /\
      (q = json_dumps [("cmd", cmd); ("afi", "ipv4"); ("target", t)] \/
       q = json_dumps [("cmd", cmd); ("afi", "ipv6"); ("target", t)]))
  \/ (str_in cmd ["ping"; "traceroute"] = true /\
      (q = json_dumps [("cmd", cmd); ("afi", "ipv4");
                       ("source", src_addr_ipv4 dev); ("target", t)] \/
       q = json_dumps [("cmd", cmd); ("afi", "ipv6");
                       ("source", src_addr_ipv6 dev); ("target", t)])).
Proof.
  py_cases; intros [=]; subst; cbn;
    repeat match goal with
           | H : String.eqb _ _ = true |- _ => apply String.eqb_eq in H; subst
           end;
    cbn; auto 10.
Qed.

(** X3.  The one danger tuple [frr] ever returns is that of a bgp_community
    target no pattern accepts: the results "is an invalid IP Address." and
    "Command ... not found." are never returned by it. *)
Theorem frr_danger_only_for_community (cmd t : string) (dev : Device)
    (lg : list log_record) (m : string) (a q : string) :
  snd (frr cmd t dev lg) = Returns (Some (m, danger code, a, q)) ->
  cmd = "bgp_community" /\
  Community.syntax (chomp t) = false /\
  m = t +:+ " is an invalid BGP Community Format.".
Proof.
  unfold Community.syntax.
  rewrite <- re_new_format_chomp, <- re_32bit_chomp, <- re_large_chomp.
  py_cases; intros [=]; subst.
  match goal with
  | H : String.eqb _ _ = true |- _ => apply String.eqb_eq in H; subst
  end.
  auto.
Qed.

(** X4.  What a call of [frr] logs: the [INFO] record, then one [ERROR] record
    exactly when it returns a danger tuple.  When [frr] raises, the
    rejected query leaves no [ERROR] record. *)
Theorem frr_log (cmd t : string) (dev : Device) (lg : list log_record) :
  fst (frr cmd t dev lg) =
    (lg ++ frr_info cmd t dev ::
       match snd (frr cmd t dev lg) with
       | Returns (Some (m, st, _, q)) =>
           if st =? danger code
           then [(ERROR, commas [m; pretty (danger code); name dev; q])]
           else []
       | _ => []
       end)%list.
Proof.
  pose proof (re_aspath_always t) as Hany. revert Hany.
  py_cases; intros Hany; try discriminate;
    rewrite <- ?app_assoc; reflexivity.
Qed.

End FrrOutcomes.

Section SshOutcomes.
Context `{G : Globals}.

(** The keyword arguments [ssh] hands to [str.format] in an address query
    of family [v]: the target as received, and for ping and traceroute the
    device's source address of that family. *)
Lemma ssh_address_query_runs (cmd t : string) (dev : Device) (lg : list log_record)
    (entry : commands_entry) (v : Z) :
  commands !! type dev = Some entry ->
  str_in cmd ["bgp_route"; "ping"; "traceroute"] = true ->
  IPNetwork_ip_version t = Returns v ->
  v = 4 \/ v = 6 ->
  let group := if v =? 4 then entry_ipv4 entry else entry_ipv6 entry in
  let source := if v =? 4 then ("src_addr_ipv4", src_addr_ipv4 dev)
                else ("src_addr_ipv6", src_addr_ipv6 dev) in
  let kw := if String.eqb cmd "bgp_route" then [("target", t)]
            else [("target", t); source] in
  let valid := t +:+ (if v =? 4 then " is a valid IPv4 Adddress."
                      else " is a valid IPv6 Adddress.") in
  let invalid := t +:+ " is an invalid IP Address." in
  ssh cmd t dev lg =
    match group !! cmd with
    | Some mc =>
        match str_format mc kw with
        | Returns command =>
            ((lg ++ [ssh_info cmd t dev])%list,
             Returns (Some (valid, success code, address dev, type dev, command)))
        | Raises _ =>
            ((lg ++ [ssh_info cmd t dev; ssh_error invalid cmd t dev])%list,
             Returns (Some (invalid, danger code, name dev, cmd, t)))
        end
    | None =>
        ((lg ++ [ssh_info cmd t dev; ssh_error invalid cmd t dev])%list,
         Returns (Some (invalid, danger code, name dev, cmd, t)))
    end.
Proof.
  intros He Hcmd Hip Hv. apply str_in_true in Hcmd. simpl in Hcmd.
  destruct Hcmd as [<- | [<- | [<- | []]]]; destruct Hv as [-> | ->];
    cbn zeta; cbn [Z.eqb Pos.eqb String.eqb Ascii.eqb Bool.eqb];
    py_unfold; cbn; rewrite He; cbn; rewrite Hip; cbn;
    repeat (py_case; cbn); rewrite <- ?app_assoc; reflexivity.
Qed.

(** X5.  An address query on a target of version 4 or 6 takes its template
    from the group of that family of the device's vendor, and renders it
    with the target as received and, for ping and traceroute, the device's
    source address of that family; the result is the success tuple with
    the device's address, its vendor type and the rendered command. *)
Theorem ssh_valid_address_command (cmd t : string) (dev : Device)
    (lg : list log_record) (entry : commands_entry) (v : Z) (mc command : string) :
  commands !! type dev = Some entry ->
  str_in cmd ["bgp_route"; "ping"; "traceroute"] = true ->
  IPNetwork_ip_version t = Returns v ->
  v = 4 \/ v = 6 ->
  (if v =? 4 then entry_ipv4 entry else entry_ipv6 entry) !! cmd = Some mc ->
  str_format mc
    (if String.eqb cmd "bgp_route" then [("target", t)]
     else [("target", t);
           if v =? 4 then ("src_addr_ipv4", src_addr_ipv4 dev)
           else ("src_addr_ipv6", src_addr_ipv6 dev)])
    = Returns command ->
  ssh cmd t dev lg =
    ((lg ++ [ssh_info cmd t dev])%list,
     Returns (Some (t +:+ (if v =? 4 then " is a valid IPv4 Adddress."
                           else " is a valid IPv6 Adddress."),
                    success code, address dev, type dev, command))).
Proof.
  intros He Hcmd Hip Hv Hmc Hf.
  rewrite (ssh_address_query_runs cmd t dev lg entry v He Hcmd Hip Hv).
  cbn zeta. now rewrite Hmc, Hf.
Qed.

(** X6.  A template that does not render (a placeholder [ssh] passes no value
    for, a stray brace) is reported like a malformed target: the
    exception of [str.format] is caught by the handler of the address
    parser, and the result is the danger tuple "is an invalid IP
    Address.", with an [ERROR] record of the same text. *)
Theorem ssh_unrenderable_template_reported_as_invalid_address (cmd t : string)
    (dev : Device) (lg : list log_record) (entry : commands_entry) (v : Z)
    (mc : string) (e : exn) :
  commands !! type dev = Some entry ->
  str_in cmd ["bgp_route"; "ping"; "traceroute"] = true ->
  IPNetwork_ip_version t = Returns v ->
  v = 4 \/ v = 6 ->
  (if v =? 4 then entry_ipv4 entry else entry_ipv6 entry) !! cmd = Some mc ->
  str_format mc
    (if String.eqb cmd "bgp_route" then [("target", t)]
     else [("target", t);
           if v =? 4 then ("src_addr_ipv4", src_addr_ipv4 dev)
           else ("src_addr_ipv6", src_addr_ipv6 dev)])
    = Raises e ->
  ssh cmd t dev lg =
    ((lg ++ [ssh_info cmd t dev;
             ssh_error (t +:+ " is an invalid IP Address.") cmd t dev])%list,
     Returns (Some (t +:+ " is an invalid IP Address.", danger code,
                    name dev, cmd, t))).
Proof.
  intros He Hcmd Hip Hv Hmc Hf.
  rewrite (ssh_address_query_runs cmd t dev lg entry v He Hcmd Hip Hv).
  cbn zeta. now rewrite Hmc, Hf.
Qed.

(** X7.  A bgp_community target that none of the three patterns accepts is
    refused before any template is looked up: on a known vendor the
    danger tuple is returned whatever the template groups hold, also when
    the vendor has no bgp_community template at all. *)
Theorem ssh_bgp_community_refused_before_lookup (t : string) (dev : Device)
    (lg : list log_record) (entry : commands_entry) :
  commands !! type dev = Some entry ->
  Community.syntax (chomp t) = false ->
  ssh "bgp_community" t dev lg =
    ((lg ++ [ssh_info "bgp_community" t dev;
             ssh_error (t +:+ " is an invalid BGP Community Format.")
                       "bgp_community" t dev])%list,
     Returns (Some (t +:+ " is an invalid BGP Community Format.", danger code,
                    name dev, "bgp_community", t))).
Proof.
  intros He H. unfold Community.syntax in H.
  rewrite <- re_new_format_chomp, <- re_32bit_chomp, <- re_large_chomp in H.
  apply orb_false_iff in H as [H H3]. apply orb_false_iff in H as [H1 H2].
  py_run. now rewrite <- app_assoc.
Qed.

(** X8.  The exceptions that leave [ssh]: [TypeError] for a vendor the commands
    file lacks; and, for bgp_community and bgp_aspath only, [KeyError] on
    the query type when the "dual" group has no template for it, or
    whatever [str.format] raises on that template.  On a known vendor the
    address queries and the unknown query types never raise. *)
Theorem ssh_raises_only (cmd t : string) (dev : Device) (lg : list log_record)
    (e : exn) :
  snd (ssh cmd t dev lg) = Raises e ->
  (commands !! type dev = None /\
   e = TypeError "__init__() should return None, not 'tuple'")
  \/ (exists entry,
        commands !! type dev = Some entry /\
        (cmd = "bgp_community" \/ cmd = "bgp_aspath") /\
        ((entry_dual entry !! cmd = None /\ e = KeyError cmd) \/
         (exists mc, entry_dual entry !! cmd = Some mc /\
                     str_format mc [("target", t)] = Raises e))).
Proof.
  py_cases; intros [=]; subst; auto;
    right; eexists; (split; [reflexivity |]);
    repeat match goal with
           | H : String.eqb _ _ = true |- _ => apply String.eqb_eq in H; subst
           end;
    (split; [auto |]); eauto.
Qed.

(** X9.  What a call of [ssh] logs: the [INFO] record, then one [ERROR] record
    exactly when the vendor is unknown or a danger tuple is returned, with
    the message of that tuple, the code 415, the device's name, the query
    type and the target.  A [KeyError] for a missing "dual" template
    leaves no [ERROR] record. *)
Theorem ssh_log (cmd t : string) (dev : Device) (lg : list log_record) :
  fst (ssh cmd t dev lg) =
    (lg ++ ssh_info cmd t dev ::
       match commands !! type dev with
       | None =>
           [ssh_error (type dev +:+ " is an unsupported network operating system.")
                      cmd t dev]
       | Some _ =>
           match snd (ssh cmd t dev lg) with
           | Returns (Some (m, st, _, _, _)) =>
               if st =? danger code then [ssh_error m cmd t dev] else []
           | _ => []
           end
       end)%list.
Proof.
  pose proof (re_aspath_always t) as Hany. revert Hany.
  py_cases; intros Hany; try discriminate;
    rewrite <- ?app_assoc; reflexivity.
Qed.

End SshOutcomes.

(** ** The community patterns *)

Section CommunityPatterns.

Lemma new_format_split (x : string) :
  Community.new_format x = true -> length (split_on ":" x) = 2%nat.
Proof.
  unfold Community.new_format.
  destruct (split_on ":" x) as [|a [|b [|c l]]]; try discriminate. reflexivity.
Qed.

Lemma plain_32bit_split (x : string) :
  Community.plain_32bit x = true -> length (split_on ":" x) = 1%nat.
Proof.
  intros H. apply plain_32bit_true in H as [Hd _].
  now rewrite (split_on_digits _ Hd).
Qed.

Lemma large_split (x : string) :
  Community.large x = true -> length (split_on ":" x) = 3%nat.
Proof.
  unfold Community.large.
  destruct (split_on ":" x) as [|a [|b [|c [|d l]]]]; try discriminate. reflexivity.
Qed.

(** X10.  No target is accepted by two of the three patterns (they differ in
    the number of colons), so the order in which [frr] and [ssh] try them
    cannot change which message a target gets. *)
Theorem community_patterns_exclusive (s : string) :
  re_match re_new_format s && re_match re_32bit s = false /\
  re_match re_new_format s && re_match re_large s = false /\
  re_match re_32bit s && re_match re_large s = false.
Proof.
  rewrite re_new_format_chomp, re_32bit_chomp, re_large_chomp.
  pose proof (new_format_split (chomp s)) as Hn.
  pose proof (plain_32bit_split (chomp s)) as Hp.
  pose proof (large_split (chomp s)) as Hl.
  destruct (Community.new_format (chomp s)), (Community.plain_32bit (chomp s)),
    (Community.large (chomp s)); repeat split; try reflexivity;
    exfalso; specialize (Hn eq_refl) || idtac; specialize (Hp eq_refl) || idtac;
    specialize (Hl eq_refl) || idtac; congruence.
Qed.

Lemma digits_community_chars (x : string) :
  all_chars is_digit x = true -> all_chars community_char x = true.
Proof.
  induction x as [|c x IH]; simpl; [reflexivity |].
  intros H. apply andb_true_iff in H as [Hc Hx].
  unfold community_char at 1. now rewrite Hc, (IH Hx).
Qed.

Lemma chomp_length (s : string) :
  (String.length s <= S (String.length (chomp s)))%nat.
Proof.
  destruct (chomp_cases s) as [H | H]; rewrite H at 1; [lia |].
  rewrite length_app. simpl. lia.
Qed.

(** X11.  A target accepted by one of the three patterns consists of digits and
    colons only, but for one newline it may end in, and has at most 33
    characters: no pattern lets a space, a letter or any other character
    into the query or the command. *)
Theorem community_accepted_alphabet (s : string) :
  re_match re_new_format s || re_match re_32bit s || re_match re_large s = true ->
  all_chars community_char (chomp s) = true /\
  (String.length (chomp s) <= 32)%nat /\
  (String.length s <= 33)%nat.
Proof.
  rewrite re_new_format_chomp, re_32bit_chomp, re_large_chomp.
  pose proof (chomp_length s) as Hlen. intros H.
  assert (all_chars community_char (chomp s) = true /\
          (String.length (chomp s) <= 32)%nat) as [Ha Hl]; [| auto with lia].
  apply orb_true_iff in H as [H | H]; [apply orb_true_iff in H as [H | H] |].
  - apply new_format_true in H as (asn & nn & -> & Ha & Hn).
    apply digits_true in Ha as [Hda Hla], Hn as [Hdn Hln].
    rewrite all_chars_app, length_app. simpl.
    rewrite (digits_community_chars _ Hda), (digits_community_chars _ Hdn).
    split; [reflexivity | lia].
  - apply plain_32bit_true in H as [Hd Hl].
    rewrite (digits_community_chars _ Hd). split; [reflexivity | lia].
  - apply large_true in H as (a & b & c & -> & Ha & Hb & Hc).
    apply digits_true in Ha as [Hda Hla], Hb as [Hdb Hlb], Hc as [Hdc Hlc].
    rewrite all_chars_app, length_app. simpl.
    rewrite all_chars_app, length_app. simpl.
    rewrite (digits_community_chars _ Hda), (digits_community_chars _ Hdb),
      (digits_community_chars _ Hdc).
    split; [reflexivity | lia].
Qed.

End CommunityPatterns.

(** * [Networks.import_params] *)

Section InsertAll.
Context {V W : Type} (f : V -> W).

(* Inserting the pairs of a list one after the other, as the loop of
   [import_params] does on the class attributes and on [networks]. *)
Local Abbreviation insert_all := (foldl (fun m kv => <[kv.1 := f kv.2]> m)).

Lemma insert_all_notin (l : list (string * V)) (m : gmap string W) (k : string) :
  k ∉ l.*1 -> insert_all m l !! k = m !! k.
Proof.
  revert m. induction l as [|[k' v] l IH]; intros m Hk; [reflexivity |].
  cbn in *. apply not_elem_of_cons in Hk as [Hne Hk].
  rewrite (IH _ Hk). now rewrite lookup_insert_ne.
Qed.

Lemma insert_all_last (pre post : list (string * V)) (m : gmap string W)
    (k : string) (v : V) :
  k ∉ post.*1 -> insert_all m (pre ++ (k, v) :: post)%list !! k = Some (f v).
Proof.
  intros Hk. rewrite foldl_app. cbn.
  rewrite (insert_all_notin post _ _ Hk). apply lookup_insert_eq.
Qed.

Lemma insert_all_dom (l : list (string * V)) (m : gmap string W) :
  dom (insert_all m l) = dom m ∪ list_to_set l.*1.
Proof.
  revert m. induction l as [|[k v] l IH]; intros m; cbn.
  - now rewrite (right_id_L ∅ (∪)).
  - rewrite IH, dom_insert_L.
    now rewrite (comm_L (∪) {[k]} (dom m)), (assoc_L (∪)).
Qed.

End InsertAll.

Section ImportParamsFacts.
Import Networks.
Context {Params : Type}.
Variable clean_name : string -> outcome string.
Variable Network___init__ : Params -> outcome Network.
Variable Networks___init__ : gmap string attr -> outcome Networks_obj.
Variable setattr_refused : string -> option exn.

Local Abbreviation builds :=
  (Networks.builds clean_name Network___init__ setattr_refused).
Local Abbreviation fails :=
  (Networks.fails clean_name Network___init__ setattr_refused).
Local Abbreviation import_loop :=
  (Networks.import_loop clean_name Network___init__ setattr_refused).
Local Abbreviation import_params :=
  (Networks.import_params clean_name Network___init__ Networks___init__
                          setattr_refused).

Lemma import_loop_builds (items : list (string * Params))
    (built : list (string * Network)) :
  builds items built ->
  forall attrs networks,
    import_loop items attrs networks =
      (foldl (fun m kn => <[kn.1 := Instance kn.2]> m) attrs built,
       Returns (foldl (fun m kn => <[kn.1 := Network_dict kn.2]> m) networks built)).
Proof.
  induction 1 as [|[k p] [k' n] items built (Hk & Hn & Hs) _ IH];
    intros attrs networks; [reflexivity |].
  cbn in *. rewrite Hk, Hn, Hs. apply IH.
Qed.

Lemma import_loop_raises (pre post : list (string * Params))
    (built : list (string * Network)) (item : string * Params) (e : exn) :
  builds pre built ->
  fails item e ->
  forall attrs networks,
    import_loop (pre ++ item :: post)%list attrs networks =
      (foldl (fun m kn => <[kn.1 := Instance kn.2]> m) attrs built, Raises e).
Proof.
  intros Hb He.
  induction Hb as [|[k0 p0] [k' n] items built (Hk & Hn & Hs) _ IH];
    intros attrs networks.
  - destruct item as [k p]. unfold Networks.fails in He. cbn in *.
    destruct He as [He | (k' & Hk & [He | (n & Hn & Hs)])].
    + now rewrite He.
    + now rewrite Hk, He.
    + now rewrite Hk, Hn, Hs.
  - cbn in *. rewrite Hk, Hn, Hs. apply IH.
Qed.

(** X15.  When [Networks()] succeeds and every network of the
    configuration goes through (its name is cleaned, its parameters
    validate, [setattr] accepts the cleaned name), [import_params] returns
    the object and leaves in [Networks.networks] a dict whose keys are the
    cleaned names.  Of several networks whose names clean to the same
    key, the last one in the configuration is the one recorded. *)
Theorem import_params_networks (items : list (string * Params))
    (built : list (string * Network)) (attrs : gmap string attr)
    (obj : Networks_obj) :
  Networks___init__ attrs = Returns obj ->
  builds items built ->
  exists attrs' networks,
    import_params items attrs = (attrs', Returns obj) /\
    attrs' !! "networks" = Some (NetworksDict networks) /\
    dom networks = list_to_set built.*1 /\
    forall pre k n post,
      built = (pre ++ (k, n) :: post)%list -> k ∉ post.*1 ->
      networks !! k = Some (Network_dict n).
Proof.
  intros Hobj Hb. unfold Networks.import_params.
  rewrite Hobj, (import_loop_builds _ _ Hb). eexists _, _.
  split; [reflexivity |]. split; [apply lookup_insert_eq |]. split.
  - rewrite (insert_all_dom Network_dict), dom_empty_L.
    now rewrite (left_id_L ∅ (∪)).
  - intros pre k n post -> Hk. now apply (insert_all_last Network_dict).
Qed.

(** X16.  On the same conditions, each cleaned name other than "networks"
    is afterwards an attribute of the class [Networks] holding the
    [Network] of the last network of that cleaned name, and every other
    attribute but [networks] is as it was. *)
Theorem import_params_attributes (items : list (string * Params))
    (built : list (string * Network)) (attrs : gmap string attr)
    (obj : Networks_obj) :
  Networks___init__ attrs = Returns obj ->
  builds items built ->
  exists attrs',
    import_params items attrs = (attrs', Returns obj) /\
    (forall pre k n post,
        built = (pre ++ (k, n) :: post)%list -> k ∉ post.*1 -> k <> "networks" ->
        attrs' !! k = Some (Instance n)) /\
    (forall k, k ∉ built.*1 -> k <> "networks" -> attrs' !! k = attrs !! k).
Proof.
  intros Hobj Hb. unfold Networks.import_params.
  rewrite Hobj, (import_loop_builds _ _ Hb). eexists.
  split; [reflexivity |]. split.
  - intros pre k n post -> Hk Hne. rewrite lookup_insert_ne by congruence.
    now apply (insert_all_last Instance).
  - intros k Hk Hne. rewrite lookup_insert_ne by congruence.
    now apply (insert_all_notin Instance).
Qed.

(** X17.  When [Networks()] succeeds and a network does not go through
    (its name cannot be cleaned, its validation fails, or [setattr]
    refuses its cleaned name) while those before it do, [import_params]
    raises that exception and nothing is rolled back: the networks before
    it stay installed as attributes of the class, the networks after it
    are not looked at, and every other attribute, [networks] included, is
    as it was. *)
Theorem import_params_failure (pre post : list (string * Params))
    (built : list (string * Network)) (item : string * Params) (e : exn)
    (attrs : gmap string attr) (obj : Networks_obj) :
  Networks___init__ attrs = Returns obj ->
  builds pre built ->
  fails item e ->
  exists attrs',
    import_params (pre ++ item :: post)%list attrs = (attrs', Raises e) /\
    (forall pre' k' n post',
        built = (pre' ++ (k', n) :: post')%list -> k' ∉ post'.*1 ->
        attrs' !! k' = Some (Instance n)) /\
    (forall k', k' ∉ built.*1 -> attrs' !! k' = attrs !! k').
Proof.
  intros Hobj Hb He. unfold Networks.import_params.
  rewrite Hobj, (import_loop_raises _ post _ _ _ Hb He). eexists.
  split; [reflexivity |]. split.
  - intros pre' k' n post' -> Hk. now apply (insert_all_last Instance).
  - intros k' Hk. now apply (insert_all_notin Instance).
Qed.

End ImportParamsFacts.

(** * bgp_community, end to end *)

Section CommunityVerdict.
Context `{G : Globals}.

(** X12.  [frr] never raises on a bgp_community query: for every target
    it returns a tuple, the success tuple when the target, without one
    final newline if it has one, has one of the three worded syntaxes and
    the danger tuple otherwise.  So it returns success exactly for those
    targets. *)
Theorem frr_bgp_community_success_iff (t : string) (dev : Device)
    (lg : list log_record) :
  (exists m q,
      snd (frr "bgp_community" t dev lg)
        = Returns (Some (m, (if Community.syntax (chomp t)
                             then success code else danger code),
                         address dev, q))) /\
  ((exists m q,
       snd (frr "bgp_community" t dev lg)
         = Returns (Some (m, success code, address dev, q)))
   <-> Community.syntax (chomp t) = true).
Proof.
  rewrite frr_bgp_community_by_syntax. unfold Community.syntax.
  destruct (Community.new_format (chomp t));
    [split; [| split; [reflexivity | intros _]]; eexists _, _; reflexivity |].
  destruct (Community.plain_32bit (chomp t));
    [split; [| split; [reflexivity | intros _]]; eexists _, _; reflexivity |].
  destruct (Community.large (chomp t));
    [split; [| split; [reflexivity | intros _]]; eexists _, _; reflexivity |].
  split; [eexists _, _; reflexivity |].
  split; [intros (m & q & [=]) | discriminate].
Qed.

(** X13.  The same for [ssh], on a device whose vendor has a bgp_community
    template that renders with the target: the command of the success
    tuple is that rendering. *)
Theorem ssh_bgp_community_success_iff (t : string) (dev : Device)
    (lg : list log_record) (entry : commands_entry) (mc command : string) :
  commands !! type dev = Some entry ->
  entry_dual entry !! "bgp_community" = Some mc ->
  str_format mc [("target", t)] = Returns command ->
  (exists m,
      snd (ssh "bgp_community" t dev lg)
        = Returns (Some (m, success code, address dev, type dev, command)))
  <-> Community.syntax (chomp t) = true.
Proof.
  intros He Hmc Hf.
  rewrite (ssh_bgp_community_by_syntax _ _ _ _ _ _ He Hmc Hf).
  unfold Community.syntax.
  destruct (Community.new_format (chomp t));
    [split; [reflexivity | intros _; eexists; reflexivity] |].
  destruct (Community.plain_32bit (chomp t));
    [split; [reflexivity | intros _; eexists; reflexivity] |].
  destruct (Community.large (chomp t));
    [split; [reflexivity | intros _; eexists; reflexivity] |].
  split; [intros (m & [=]) | discriminate].
Qed.

End CommunityVerdict.

(** * The further properties on the sample globals *)

Lemma frr_query_payload_witness :
  snd (frr "traceroute" "2001:db8::1" Sample.router1 [])
    = Returns (Some ("2001:db8::1 is a valid IPv6 Adddress.", 200, "192.0.2.1",
                     json_dumps [("cmd", "traceroute"); ("afi", "ipv6");
                                 ("source", "2001:db8::ff");
                                 ("target", "2001:db8::1")])) /\
  ((str_in "traceroute" ["bgp_community"; "bgp_aspath"] = true /\
    json_dumps [("cmd", "traceroute"); ("afi", "ipv6");
                ("source", "2001:db8::ff"); ("target", "2001:db8::1")]
      = json_dumps [("cmd", "traceroute"); ("afi", "dual");
                    ("target", "2001:db8::1")])
   \/ ("traceroute" = "bgp_route" /\
       (json_dumps [("cmd", "traceroute"); ("afi", "ipv6");
                    ("source", "2001:db8::ff"); ("target", "2001:db8::1")]
          = json_dumps [("cmd", "traceroute"); ("afi", "ipv4");
                        ("target", "2001:db8::1")] \/
        json_dumps [("cmd", "traceroute"); ("afi", "ipv6");
                    ("source", "2001:db8::ff"); ("target", "2001:db8::1")]
          = json_dumps [("cmd", "traceroute"); ("afi", "ipv6");
                        ("target", "2001:db8::1")]))
   \/ (str_in "traceroute" ["ping"; "traceroute"] = true /\
       (json_dumps [("cmd", "traceroute"); ("afi", "ipv6");
                    ("source", "2001:db8::ff"); ("target", "2001:db8::1")]
          = json_dumps [("cmd", "traceroute"); ("afi", "ipv4");
                        ("source", src_addr_ipv4 Sample.router1);
                        ("target", "2001:db8::1")] \/
        json_dumps [("cmd", "traceroute"); ("afi", "ipv6");
                    ("source", "2001:db8::ff"); ("target", "2001:db8::1")]
          = json_dumps [("cmd", "traceroute"); ("afi", "ipv6");
                        ("source", src_addr_ipv6 Sample.router1);
                        ("target", "2001:db8::1")]))).
Proof.
  split; [reflexivity |].
  apply (frr_query_payload "traceroute" "2001:db8::1" Sample.router1 []
           "2001:db8::1 is a valid IPv6 Adddress." 200 "192.0.2.1").
  reflexivity.
Defined.

Lemma frr_danger_only_for_community_witness :
  snd (frr "bgp_community" "abc" Sample.router1 [])
    = Returns (Some ("abc is an invalid BGP Community Format.", danger code,
                     "192.0.2.1",
                     json_dumps [("cmd", "bgp_community"); ("afi", "dual");
                                 ("target", "abc")])) /\
  "bgp_community" = "bgp_community" /\
  Community.syntax (chomp "abc") = false /\
  "abc is an invalid BGP Community Format."
    = "abc" +:+ " is an invalid BGP Community Format.".
Proof.
  split; [reflexivity |].
  apply (frr_danger_only_for_community "bgp_community" "abc" Sample.router1 []
           "abc is an invalid BGP Community Format." "192.0.2.1"
           (json_dumps [("cmd", "bgp_community"); ("afi", "dual");
                        ("target", "abc")])).
  reflexivity.
Defined.

Lemma ssh_valid_address_command_witness :
  ssh "ping" "2001:db8::1" Sample.router1 []
    = ([ssh_info "ping" "2001:db8::1" Sample.router1],
       Returns (Some ("2001:db8::1 is a valid IPv6 Adddress.", success code,
                      "192.0.2.1", "cisco_ios",
                      "ping ipv6 2001:db8::1 source 2001:db8::ff"))).
Proof.
  apply (ssh_valid_address_command "ping" "2001:db8::1" Sample.router1 []
           Sample.cisco_ios 6 "ping ipv6 {target} source {src_addr_ipv6}"
           "ping ipv6 2001:db8::1 source 2001:db8::ff");
    [reflexivity | reflexivity | reflexivity | right; reflexivity
     | reflexivity | reflexivity].
Defined.

Lemma ssh_unrenderable_template_reported_as_invalid_address_witness :
  ssh (G := Misconfigured.globals) "bgp_route" "192.0.2.0/24"
      Misconfigured.router4 []
    = ([ssh_info "bgp_route" "192.0.2.0/24" Misconfigured.router4;
        ssh_error "192.0.2.0/24 is an invalid IP Address." "bgp_route"
                  "192.0.2.0/24" Misconfigured.router4],
       Returns (Some ("192.0.2.0/24 is an invalid IP Address.", danger code,
                      "router4", "bgp_route", "192.0.2.0/24"))).
Proof.
  apply (ssh_unrenderable_template_reported_as_invalid_address
           (G := Misconfigured.globals) "bgp_route" "192.0.2.0/24"
           Misconfigured.router4 [] Misconfigured.junos 4
           "show route {target} source {src_addr_ipv4}"
           (KeyError "src_addr_ipv4"));
    [reflexivity | reflexivity | reflexivity | left; reflexivity
     | reflexivity | reflexivity].
Defined.

Lemma ssh_bgp_community_refused_before_lookup_witness :
  entry_dual Misconfigured.junos !! "bgp_community" = None /\
  ssh (G := Misconfigured.globals) "bgp_community" "abc" Misconfigured.router4 []
    = ([ssh_info "bgp_community" "abc" Misconfigured.router4;
        ssh_error "abc is an invalid BGP Community Format." "bgp_community"
                  "abc" Misconfigured.router4],
       Returns (Some ("abc is an invalid BGP Community Format.", danger code,
                      "router4", "bgp_community", "abc"))).
Proof.
  split; [reflexivity |].
  apply (ssh_bgp_community_refused_before_lookup (G := Misconfigured.globals)
           "abc" Misconfigured.router4 [] Misconfigured.junos);
    reflexivity.
Defined.

Lemma ssh_raises_only_witness :
  snd (ssh "bgp_aspath" "_65000$" Sample.router3 [])
    = Raises (KeyError "bgp_aspath") /\
  ((commands !! type Sample.router3 = None /\
    KeyError "bgp_aspath"
      = TypeError "__init__() should return None, not 'tuple'")
   \/ (exists entry,
         commands !! type Sample.router3 = Some entry /\
         ("bgp_aspath" = "bgp_community" \/ "bgp_aspath" = "bgp_aspath") /\
         ((entry_dual entry !! "bgp_aspath" = None /\
           KeyError "bgp_aspath" = KeyError "bgp_aspath") \/
          (exists mc, entry_dual entry !! "bgp_aspath" = Some mc /\
                      str_format mc [("target", "_65000$")]
                        = Raises (KeyError "bgp_aspath"))))).
Proof.
  split; [reflexivity |].
  apply (ssh_raises_only "bgp_aspath" "_65000$" Sample.router3 []).
  reflexivity.
Defined.

Lemma community_accepted_alphabet_witness :
  all_chars community_char (chomp "1:2:3") = true /\
  (String.length (chomp "1:2:3") <= 32)%nat /\
  (String.length "1:2:3" <= 33)%nat.
Proof. apply (community_accepted_alphabet "1:2:3"). reflexivity. Defined.

Lemma ssh_bgp_community_success_iff_witness :
  (exists m,
      snd (ssh "bgp_community" "65000:100" Sample.router1 [])
        = Returns (Some (m, success code, address Sample.router1,
                         type Sample.router1,
                         "show bgp all community 65000:100")))
  <-> Community.syntax (chomp "65000:100") = true.
Proof.
  apply (ssh_bgp_community_success_iff "65000:100" Sample.router1 []
           Sample.cisco_ios "show bgp all community {target}");
    reflexivity.
Defined.

Section ImportParamsSample.
Import Networks.

Local Abbreviation clean := (fun s => Returns (sample_clean_name s)).
Local Abbreviation sample_import_params :=
  (import_params clean sample_Network___init__ sample_Networks___init__
                 sample_setattr_refused).

Lemma sample_builds :
  builds clean sample_Network___init__ sample_setattr_refused
         sample_items sample_built.
Proof. repeat (constructor; [repeat split; reflexivity |]). constructor. Defined.

Lemma import_params_networks_witness :
  builds clean sample_Network___init__ sample_setattr_refused
         sample_items sample_built /\
  exists attrs' networks,
    sample_import_params sample_items ∅ = (attrs', Returns NetworksObj) /\
    attrs' !! "networks" = Some (NetworksDict networks) /\
    dom networks = list_to_set sample_built.*1 /\
    networks !! "isp_a"
      = Some (Network_dict {| display_name := "ISP A, renamed" |}).
Proof.
  split; [exact sample_builds |].
  destruct (import_params_networks clean sample_Network___init__
              sample_Networks___init__ sample_setattr_refused
              sample_items sample_built ∅ NetworksObj eq_refl sample_builds)
    as (attrs' & networks & Hrun & Hattr & Hdom & Hlast).
  exists attrs', networks. repeat split; try assumption.
  apply (Hlast [("isp_a", {| display_name := "ISP A" |})] "isp_a" _
               [("ix_1", {| display_name := "Exchange 1" |})]);
    [reflexivity |].
  apply not_elem_of_cons. split; [discriminate | apply not_elem_of_nil].
Defined.

Lemma import_params_attributes_witness :
  exists attrs',
    sample_import_params sample_items {[ "Config" := Other "class Config" ]}
      = (attrs', Returns NetworksObj) /\
    attrs' !! "isp_a" = Some (Instance {| display_name := "ISP A, renamed" |}) /\
    attrs' !! "Config" = Some (Other "class Config").
Proof.
  destruct (import_params_attributes clean sample_Network___init__
              sample_Networks___init__ sample_setattr_refused
              sample_items sample_built {[ "Config" := Other "class Config" ]}
              NetworksObj eq_refl sample_builds)
    as (attrs' & Hrun & Hlast & Hother).
  exists attrs'. split; [assumption |]. split.
  - apply (Hlast [("isp_a", {| display_name := "ISP A" |})] "isp_a" _
                 [("ix_1", {| display_name := "Exchange 1" |})]);
      [reflexivity | | discriminate].
    apply not_elem_of_cons. split; [discriminate | apply not_elem_of_nil].
  - rewrite Hother; [reflexivity | | discriminate].
    repeat (apply not_elem_of_cons; split; [discriminate |]).
    apply not_elem_of_nil.
Defined.

(** Two failures: a network without "display_name", and a network whose
    name [setattr] refuses on a class. *)
Lemma import_params_failure_witness :
  (exists attrs',
      sample_import_params sample_bad_items ∅
        = (attrs', Raises (ValueError "display_name: field required")) /\
      attrs' !! "isp_a" = Some (Instance {| display_name := "ISP A" |}) /\
      attrs' !! "networks" = None /\
      attrs' !! "ix_1" = None) /\
  (exists attrs',
      sample_import_params sample_reserved_items ∅
        = (attrs',
           Raises (TypeError "__class__ must be set to a class, not 'Network' object")) /\
      attrs' !! "isp_a" = Some (Instance {| display_name := "ISP A" |}) /\
      attrs' !! "networks" = None /\
      attrs' !! "ix_1" = None).
Proof.
  split.
  - destruct (import_params_failure clean sample_Network___init__
                sample_Networks___init__ sample_setattr_refused
                [("isp-a", {[ "display_name" := "ISP A" ]})]
                [("ix 1", {[ "display_name" := "Exchange 1" ]})]
                [("isp_a", {| display_name := "ISP A" |})]
                ("isp-b", ∅) (ValueError "display_name: field required")
                ∅ NetworksObj eq_refl)
      as (attrs' & Hrun & Hlast & Hother).
    + repeat (constructor; [repeat split; reflexivity |]). constructor.
    + right. exists "isp_b". split; [reflexivity |]. left. reflexivity.
    + exists attrs'. split; [exact Hrun |]. split; [| split].
      * apply (Hlast [] "isp_a" _ []); [reflexivity | apply not_elem_of_nil].
      * rewrite Hother; [reflexivity |].
        apply not_elem_of_cons. split; [discriminate | apply not_elem_of_nil].
      * rewrite Hother; [reflexivity |].
        apply not_elem_of_cons. split; [discriminate | apply not_elem_of_nil].
  - destruct (import_params_failure clean sample_Network___init__
                sample_Networks___init__ sample_setattr_refused
                [("isp-a", {[ "display_name" := "ISP A" ]})]
                [("ix 1", {[ "display_name" := "Exchange 1" ]})]
                [("isp_a", {| display_name := "ISP A" |})]
                ("__class__", {[ "display_name" := "Class" ]})
                (TypeError "__class__ must be set to a class, not 'Network' object")
                ∅ NetworksObj eq_refl)
      as (attrs' & Hrun & Hlast & Hother).
    + repeat (constructor; [repeat split; reflexivity |]). constructor.
    + right. exists "__class__". split; [reflexivity |]. right.
      eexists. split; reflexivity.
    + exists attrs'. split; [exact Hrun |]. split; [| split].
      * apply (Hlast [] "isp_a" _ []); [reflexivity | apply not_elem_of_nil].
      * rewrite Hother; [reflexivity |].
        apply not_elem_of_cons. split; [discriminate | apply not_elem_of_nil].
      * rewrite Hother; [reflexivity |].
        apply not_elem_of_cons. split; [discriminate | apply not_elem_of_nil].
Defined.

End ImportParamsSample.

(** * The two builders against each other *)

Section Agreement.
Context `{G : Globals}.

(** X14.  The classification is written out twice, once in each builder; the
    two copies agree on what they accept: whenever [ssh] returns a success
    tuple, [frr] on the same query type, target and device returns a
    success tuple too, with the same message and device address. *)
Theorem ssh_success_implies_frr_success (cmd t : string) (dev : Device)
    (lg lg' : list log_record) (m a ty c : string) :
  snd (ssh cmd t dev lg) = Returns (Some (m, success code, a, ty, c)) ->
  exists q, snd (frr cmd t dev lg') = Returns (Some (m, success code, a, q)).
Proof.
  py_cases; intros [=]; subst; try discriminate; eexists; reflexivity.
Qed.

End Agreement.

Lemma ssh_success_implies_frr_success_witness :
  snd (ssh "ping" "2001:db8::1" Sample.router1 [])
    = Returns (Some ("2001:db8::1 is a valid IPv6 Adddress.", success code,
                     "192.0.2.1", "cisco_ios",
                     "ping ipv6 2001:db8::1 source 2001:db8::ff")) /\
  exists q,
    snd (frr "ping" "2001:db8::1" Sample.router1 [])
      = Returns (Some ("2001:db8::1 is a valid IPv6 Adddress.", success code,
                       "192.0.2.1", q)).
Proof.
  split; [reflexivity |].
  apply (ssh_success_implies_frr_success "ping" "2001:db8::1" Sample.router1
           [] [] _ _ "cisco_ios" "ping ipv6 2001:db8::1 source 2001:db8::ff").
  reflexivity.
Defined.

(** * What a call does to the objects it can reach *)

Section Stateless.
Context `{L : World.Libraries}.

(** A call of [frr] leaves the objects as they are, and neither what it
    logs nor its outcome depends on the log it starts from. *)
Lemma world_frr_frame (cmd t : string) (o : World.objects) (lg : list log_record) :
  World.frr cmd t (o, lg)
    = ((o, (lg ++ (World.frr cmd t (o, [])).1.2)%list),
       (World.frr cmd t (o, [])).2).
Proof.
  destruct o as [cmds c dev].
  world_cases; rewrite <- ?app_assoc; reflexivity.
Qed.

Lemma world_ssh_frame (cmd t : string) (o : World.objects) (lg : list log_record) :
  World.ssh cmd t (o, lg)
    = ((o, (lg ++ (World.ssh cmd t (o, [])).1.2)%list),
       (World.ssh cmd t (o, [])).2).
Proof.
  destruct o as [cmds c dev].
  world_cases; rewrite <- ?app_assoc; reflexivity.
Qed.

(** The builders on the store are the builders of the first part, run on
    the constants read off the store, as long as [code] holds what
    [codes()] put there. *)
Lemma world_frr_agrees (cmd t : string) (o : World.objects) (lg : list log_record) :
  World.o_code o = code ->
  World.frr cmd t (o, lg)
    = ((o, fst (frr (G := World.globals_of o) cmd t (World.o_device o) lg)),
       snd (frr (G := World.globals_of o) cmd t (World.o_device o) lg)).
Proof.
  destruct o as [cmds c dev]. cbn. intros ->.
  unfold World.globals_of. py_unfold.
  world_cases; reflexivity.
Qed.

Lemma world_ssh_agrees (cmd t : string) (o : World.objects) (lg : list log_record) :
  World.o_code o = code ->
  World.ssh cmd t (o, lg)
    = ((o, fst (ssh (G := World.globals_of o) cmd t (World.o_device o) lg)),
       snd (ssh (G := World.globals_of o) cmd t (World.o_device o) lg)).
Proof.
  destruct o as [cmds c dev]. cbn. intros ->.
  unfold World.globals_of. py_unfold.
  world_cases; reflexivity.
Qed.

(** C9.  Either builder, called on a query type and a target, writes to
    none of the objects it can reach: after the call the globals
    [commands] and [code] and the dict passed as [device] are what they
    were before, for every content they may have.  Called a second time
    with the same arguments, in the state the first call left, it returns
    the same outcome and again leaves the objects as they were.  The one
    thing a call adds to is the log, by the same records each time. *)
Theorem builders_stateless (cmd t : string) (o : World.objects)
    (lg : list log_record) :
  (exists emitted r,
      World.frr cmd t (o, lg) = ((o, (lg ++ emitted)%list), r) /\
      World.frr cmd t (o, (lg ++ emitted)%list)
        = ((o, ((lg ++ emitted) ++ emitted)%list), r)) /\
  (exists emitted r,
      World.ssh cmd t (o, lg) = ((o, (lg ++ emitted)%list), r) /\
      World.ssh cmd t (o, (lg ++ emitted)%list)
        = ((o, ((lg ++ emitted) ++ emitted)%list), r)).
Proof.
  split.
  - exists (World.frr cmd t (o, [])).1.2, (World.frr cmd t (o, [])).2.
    split; apply world_frr_frame.
  - exists (World.ssh cmd t (o, [])).1.2, (World.ssh cmd t (o, [])).2.
    split; apply world_ssh_frame.
Qed.

End Stateless.

(** The property is one of these two bodies, not of the monad: the body
    [World.counting], which assigns to [code.success], changes the
    objects and answers differently the second time. *)
Example counting_is_not_stateless :
  (World.run World.counting (World.sample_objects, [])).1.1
    <> World.sample_objects /\
  (World.run World.counting (World.sample_objects, [])).2 = Returns (Some 200) /\
  (World.run World.counting
     (World.run World.counting (World.sample_objects, [])).1).2
    = Returns (Some 201).
Proof.
  split; [| split; reflexivity].
  intros H. apply (f_equal (fun o => success (World.o_code o))) in H.
  discriminate H.
Qed.

(** Two calls in a row on the sample store: the community "65000:100"
    through [frr], and a ping through [ssh]. *)
Lemma builders_stateless_witness :
  (World.frr (L := World.sample_libraries) "bgp_community" "65000:100"
             (World.sample_objects, [])
     = ((World.sample_objects,
         [frr_info "bgp_community" "65000:100" Sample.router1]),
        Returns (Some ("65000:100 matched new-format community.", 200,
                       "192.0.2.1",
                       Sample.json_dumps [("cmd", "bgp_community");
                                          ("afi", "dual");
                                          ("target", "65000:100")]))) /\
   World.frr (L := World.sample_libraries) "bgp_community" "65000:100"
             (World.sample_objects,
              [frr_info "bgp_community" "65000:100" Sample.router1])
     = ((World.sample_objects,
         [frr_info "bgp_community" "65000:100" Sample.router1;
          frr_info "bgp_community" "65000:100" Sample.router1]),
        Returns (Some ("65000:100 matched new-format community.", 200,
                       "192.0.2.1",
                       Sample.json_dumps [("cmd", "bgp_community");
                                          ("afi", "dual");
                                          ("target", "65000:100")])))) /\
  (World.ssh (L := World.sample_libraries) "ping" "2001:db8::1"
             (World.sample_objects, [])
     = ((World.sample_objects, [ssh_info "ping" "2001:db8::1" Sample.router1]),
        Returns (Some ("2001:db8::1 is a valid IPv6 Adddress.", 200,
                       "192.0.2.1", "cisco_ios",
                       "ping ipv6 2001:db8::1 source 2001:db8::ff"))) /\
   World.ssh (L := World.sample_libraries) "ping" "2001:db8::1"
             (World.sample_objects,
              [ssh_info "ping" "2001:db8::1" Sample.router1])
     = ((World.sample_objects,
         [ssh_info "ping" "2001:db8::1" Sample.router1;
          ssh_info "ping" "2001:db8::1" Sample.router1]),
        Returns (Some ("2001:db8::1 is a valid IPv6 Adddress.", 200,
                       "192.0.2.1", "cisco_ios",
                       "ping ipv6 2001:db8::1 source 2001:db8::ff")))).
Proof.
  destruct (builders_stateless (L := World.sample_libraries)
              "bgp_community" "65000:100" World.sample_objects [])
    as [(e1 & r1 & Hf1 & Hf2) _].
  destruct (builders_stateless (L := World.sample_libraries)
              "ping" "2001:db8::1" World.sample_objects [])
    as [_ (e2 & r2 & Hs1 & Hs2)].
  assert (World.frr (L := World.sample_libraries) "bgp_community" "65000:100"
                    (World.sample_objects, [])
          = ((World.sample_objects,
              [frr_info "bgp_community" "65000:100" Sample.router1]),
             Returns (Some ("65000:100 matched new-format community.", 200,
                            "192.0.2.1",
                            Sample.json_dumps [("cmd", "bgp_community");
                                               ("afi", "dual");
                                               ("target", "65000:100")]))))
    as Hf by reflexivity.
  assert (World.ssh (L := World.sample_libraries) "ping" "2001:db8::1"
                    (World.sample_objects, [])
          = ((World.sample_objects,
              [ssh_info "ping" "2001:db8::1" Sample.router1]),
             Returns (Some ("2001:db8::1 is a valid IPv6 Adddress.", 200,
                            "192.0.2.1", "cisco_ios",
                            "ping ipv6 2001:db8::1 source 2001:db8::ff"))))
    as Hs by reflexivity.
  rewrite Hf in Hf1. rewrite Hs in Hs1.
  cbn [app] in Hf1, Hf2, Hs1, Hs2.
  injection Hf1 as <- <-. injection Hs1 as <- <-.
  split; split; assumption.
Defined.
